(** * Task manager API (src/main.py): a shallow embedding and its properties

    The program is a FastAPI application with nine route handlers over three
    external collaborators: a MongoDB database (collections [users] and
    [tasks]), a Redis cache (the single key "tasks") and three libraries
    (passlib for password hashes, PyJWT for session tokens, json for the
    cached listing).

    The handlers are embedded as functions in a state-and-exception monad
    over the contents of the two collections and of the cache.  What the
    source reads from its environment (the clock, the ObjectId the driver
    generates, the salt of a password hash) is an explicit input, [env].
    The libraries' pure functions are the fields of a class: nothing is
    assumed about them.

    The embedding ends where a handler returns: at the value it returns and
    at the [response] object it was handed. What the framework then makes of
    them (the validation against [response_model], the headers of the final
    response) is not part of it. Time is counted in whole seconds: the
    clock is read rounded down, and the dates of a token are whole seconds
    as they are in the token. *)

From stdpp Require Import gmap strings list.
From Stdlib Require Import ZArith NArith Ascii String.

Local Open Scope string_scope.
Local Open Scope Z_scope.

(** ** Configuration constants (main.py, lines 36-38) *)

Definition SECRET_KEY : string := "your-secret-key".
Definition ALGORITHM : string := "HS256".
Definition ACCESS_TOKEN_EXPIRE_HOURS : Z := 1.

(** ** Request models (main.py, lines 45-67) *)

Inductive StatusEnum := pending | completed.
Inductive PriorityEnum := low | medium | high.

Definition status_value (s : StatusEnum) : string :=
  match s with pending => "pending" | completed => "completed" end.

Definition priority_value (p : PriorityEnum) : string :=
  match p with low => "low" | medium => "medium" | high => "high" end.

Record User := { username : string; password : string }.

Record TaskSchema := {
  title : string;
  description : option string;
  status : StatusEnum;
  priority : PriorityEnum
}.

(** ** BSON values and documents

    A field of a stored document holds a typed value; two values of
    different types are different, so a string never equals an ObjectId. *)

Inductive bson :=
| BNull
| BStr (s : string)
| BObjectId (n : N)
| BDatetime (t : Z).

Global Instance bson_eq_dec : EqDecision bson.
Proof. solve_decision. Defined.

(** A document of [db.users]: what [insert_one(user.dict())] stores. *)
Record user_doc := { u_id : bson; u_username : string; u_password : string }.

(** A document of [db.tasks]: what [insert_one(task_dict)] stores. The enum
    members are subclasses of [str] and are stored as their string value. *)
Record task_doc := {
  t_id : bson;
  t_title : string;
  t_description : option string;
  t_status : string;
  t_priority : string;
  t_created_at : Z
}.

Global Instance user_doc_eq_dec : EqDecision user_doc.
Proof. solve_decision. Defined.

Global Instance task_doc_eq_dec : EqDecision task_doc.
Proof. solve_decision. Defined.

Definition opt_bson (o : option string) : bson :=
  match o with Some s => BStr s | None => BNull end.

(** The fields of a document, by name, as a filter sees them. *)
Class Document (D : Type) := doc_get : D → string → option bson.

Global Instance user_document : Document user_doc := λ d k,
  if String.eqb k "_id" then Some (u_id d)
  else if String.eqb k "username" then Some (BStr (u_username d))
  else if String.eqb k "password" then Some (BStr (u_password d))
  else None.

Global Instance task_document : Document task_doc := λ d k,
  if String.eqb k "_id" then Some (t_id d)
  else if String.eqb k "title" then Some (BStr (t_title d))
  else if String.eqb k "description" then Some (opt_bson (t_description d))
  else if String.eqb k "status" then Some (BStr (t_status d))
  else if String.eqb k "priority" then Some (BStr (t_priority d))
  else if String.eqb k "created_at" then Some (BDatetime (t_created_at d))
  else None.

(** ** The MongoDB collection operations the handlers call

    A collection is the list of its documents in natural order. A filter is
    a dict of field names to values, all of which must be equal in a matching
    document. *)

Module Mongo.

Definition matches `{Document D} (q : gmap string bson) (d : D) : bool :=
  bool_decide (map_Forall (λ k v, doc_get d k = Some v) q).

(** [find(q).to_list(n)] *)
Definition find `{Document D} (q : gmap string bson) (n : nat) (c : list D)
  : list D :=
  take n (filter (λ d, matches q d) c).

(** [find_one(q)] *)
Definition find_one `{Document D} (q : gmap string bson) (c : list D)
  : option D :=
  head (filter (λ d, matches q d) c).

(** [insert_one(d)]: the document is appended. *)
Definition insert_one {D} (d : D) (c : list D) : list D := (c ++ [d])%list.

(** [update_one(q, u)]: the first matching document is replaced by its
    update; the result is the collection and [modified_count], which is 0
    when nothing matched and also when the update left the matching
    document as it was. *)
Fixpoint update_one `{Document D} `{EqDecision D}
    (q : gmap string bson) (u : D → D) (c : list D) : list D * nat :=
  match c with
  | [] => ([], 0%nat)
  | d :: c' =>
      if matches q d
      then (u d :: c', if decide (u d = d) then 0%nat else 1%nat)
      else let '(c'', n) := update_one q u c' in (d :: c'', n)
  end.

(** [delete_one(q)]: the first matching document is removed; the result is
    the collection and [deleted_count]. *)
Fixpoint delete_one `{Document D} (q : gmap string bson) (c : list D)
  : list D * nat :=
  match c with
  | [] => ([], 0%nat)
  | d :: c' =>
      if matches q d then (c', 1%nat)
      else let '(c'', n) := delete_one q c' in (d :: c'', n)
  end.

End Mongo.

(** ** The Redis operations the handlers call

    An entry is a string with the time at which it expires, if it has one.
    An expired entry is not returned. *)

Module Redis.

Definition live (now : Z) (e : string * option Z) : bool :=
  match e.2 with Some t => bool_decide (now < t) | None => true end.

(** [get(k)] *)
Definition get (now : Z) (k : string) (r : gmap string (string * option Z))
  : option string :=
  match r !! k with
  | Some e => if live now e then Some e.1 else None
  | None => None
  end.

(** [setex(k, ttl, v)] *)
Definition setex (now : Z) (k : string) (ttl : Z) (v : string)
    (r : gmap string (string * option Z)) : gmap string (string * option Z) :=
  <[k := (v, Some (now + ttl))]> r.

(** [delete(k)] *)
Definition delete (k : string) (r : gmap string (string * option Z))
  : gmap string (string * option Z) :=
  base.delete k r.

End Redis.

(** ** Session tokens (PyJWT)

    A cookie value is a string. [jwt.decode] sees it either as a compact JWS
    (a header naming the algorithm, the claims, a signature) or as something
    that is not one. The claims are those [jwt.decode] and the application
    look at: the subject, the three dates (in seconds) and the audience,
    which is a string or a list of strings, each of the type the standard
    gives it. A claim that is absent is [None]. *)

Inductive audience :=
| AudStr (a : string)
| AudList (l : list string).

Record claims := {
  sub : option string;
  exp : option Z;
  nbf : option Z;
  iat : option Z;
  aud : option audience
}.

Inductive token :=
| Opaque (s : string)
| JWS (alg : string) (payload : claims) (signature : string).

(** Python's truth value of the cookie string: only the empty string is
    false. *)
Definition token_truthy (t : token) : bool :=
  match t with Opaque "" => false | _ => true end.

Inductive jwt_error :=
| DecodeError
| InvalidAlgorithmError
| InvalidSignatureError
| ImmatureSignatureError
| ExpiredSignatureError
| InvalidAudienceError.

(** ** Responses *)

Record cookie := {
  key : string;
  value : token;
  httponly : bool;
  max_age : Z;
  samesite : string
}.

(** The [response] parameter of a handler: the cookie headers the handler
    has put on it, oldest first. *)
Inductive header :=
| SetCookie (c : cookie)
| DeleteCookie (k : string).

Definition Response : Type := list header.

Definition set_cookie (c : cookie) (response : Response) : Response :=
  (response ++ [SetCookie c])%list.

Definition delete_cookie (k : string) (response : Response) : Response :=
  (response ++ [DeleteCookie k])%list.

(** A dict a handler returns: its values are strings or a token. *)
Inductive jvalue :=
| JStr (s : string)
| JToken (t : token).

Definition content : Type := list (string * jvalue).

Record JSONResponse := { body : content; status_code : nat }.

(** A task as [get_tasks] returns it: the document with its identifier and
    its creation time turned into strings. *)
Record task_json := {
  j_id : string;
  j_title : string;
  j_description : option string;
  j_status : string;
  j_priority : string;
  j_created_at : string
}.

Record Request := { cookies : gmap string token }.

(** ** State and the handler monad *)

Record state := {
  db_users : list user_doc;
  db_tasks : list task_doc;
  redis_client : gmap string (string * option Z)
}.

(** What a request reads from outside the program. *)
Record env := {
  utcnow : Z;          (* the clock, in seconds since the epoch *)
  new_oid : N;         (* the ObjectId the driver gives an inserted document *)
  new_salt : string    (* the salt passlib draws for a new hash *)
}.

Inductive outcome (A : Type) :=
| Return (a : A)
| HTTPException (code : nat) (detail : string)
| Uncaught (exn : string).
Arguments Return {A} a.
Arguments HTTPException {A} code detail.
Arguments Uncaught {A} exn.

Definition handler (A : Type) : Type := state → outcome A * state.

Definition ret {A} (a : A) : handler A := λ s, (Return a, s).

Definition bind {A B} (m : handler A) (k : A → handler B) : handler B := λ s,
  match m s with
  | (Return a, s') => k a s'
  | (HTTPException c d, s') => (HTTPException c d, s')
  | (Uncaught e, s') => (Uncaught e, s')
  end.

Definition raise {A} (code : nat) (detail : string) : handler A :=
  λ s, (HTTPException code detail, s).

Definition throw {A} (exn : string) : handler A := λ s, (Uncaught exn, s).

(** A dependency or a pure computation that may raise. *)
Definition lift {A} (o : outcome A) : handler A := λ s, (o, s).

Notation "x <- c ;; k" := (bind c (λ x, k))
  (at level 100, c at next level, right associativity).
Notation "c ;; k" := (bind c (λ _, k))
  (at level 100, right associativity).

(** *** The calls on [db.users], [db.tasks] and [redis_client] *)

Definition users_find_one (q : gmap string bson) : handler (option user_doc) :=
  λ s, (Return (Mongo.find_one q (db_users s)), s).

(** [db.users.insert_one(user.dict())]: the dict has no "_id", the driver
    adds a new ObjectId. *)
Definition users_insert_one (e : env) (user : User) : handler bson := λ s,
  let d := {| u_id := BObjectId (new_oid e);
              u_username := username user;
              u_password := password user |} in
  (Return (u_id d),
   {| db_users := Mongo.insert_one d (db_users s);
      db_tasks := db_tasks s;
      redis_client := redis_client s |}).

(** [db.tasks.insert_one(task_dict)], where [task_dict] is [task.dict()]
    with "created_at" added: again the driver adds a new ObjectId. The
    result is [inserted_id]. *)
Definition tasks_insert_one (e : env) (task : TaskSchema) (created_at : Z)
  : handler bson := λ s,
  let d := {| t_id := BObjectId (new_oid e);
              t_title := title task;
              t_description := description task;
              t_status := status_value (status task);
              t_priority := priority_value (priority task);
              t_created_at := created_at |} in
  (Return (t_id d),
   {| db_users := db_users s;
      db_tasks := Mongo.insert_one d (db_tasks s);
      redis_client := redis_client s |}).

Definition tasks_find (q : gmap string bson) (n : nat)
  : handler (list task_doc) :=
  λ s, (Return (Mongo.find q n (db_tasks s)), s).

(** [{"$set": task.dict()}]: the four fields of the schema are replaced,
    "_id" and "created_at" stay. *)
Definition set_fields (task : TaskSchema) (d : task_doc) : task_doc :=
  {| t_id := t_id d;
     t_title := title task;
     t_description := description task;
     t_status := status_value (status task);
     t_priority := priority_value (priority task);
     t_created_at := t_created_at d |}.

(** The result is [modified_count]. *)
Definition tasks_update_one (q : gmap string bson) (task : TaskSchema)
  : handler nat := λ s,
  let '(c, n) := Mongo.update_one q (set_fields task) (db_tasks s) in
  (Return n,
   {| db_users := db_users s; db_tasks := c; redis_client := redis_client s |}).

(** The result is [deleted_count]. *)
Definition tasks_delete_one (q : gmap string bson) : handler nat := λ s,
  let '(c, n) := Mongo.delete_one q (db_tasks s) in
  (Return n,
   {| db_users := db_users s; db_tasks := c; redis_client := redis_client s |}).

Definition redis_get (e : env) (k : string) : handler (option string) :=
  λ s, (Return (Redis.get (utcnow e) k (redis_client s)), s).

Definition redis_setex (e : env) (k : string) (ttl : Z) (v : string)
  : handler unit := λ s,
  (Return tt,
   {| db_users := db_users s;
      db_tasks := db_tasks s;
      redis_client := Redis.setex (utcnow e) k ttl v (redis_client s) |}).

Definition redis_delete (k : string) : handler unit := λ s,
  (Return tt,
   {| db_users := db_users s;
      db_tasks := db_tasks s;
      redis_client := Redis.delete k (redis_client s) |}).

(** ** ObjectId to string: 24 hexadecimal digits *)

Definition hex_digit (n : N) : ascii :=
  match n with
  | 0 => "0" | 1 => "1" | 2 => "2" | 3 => "3" | 4 => "4" | 5 => "5"
  | 6 => "6" | 7 => "7" | 8 => "8" | 9 => "9" | 10 => "a" | 11 => "b"
  | 12 => "c" | 13 => "d" | 14 => "e" | _ => "f"
  end%N%char.

Fixpoint hex_digits (width : nat) (n : N) (acc : string) : string :=
  match width with
  | O => acc
  | S w => hex_digits w (n / 16)%N (String (hex_digit (n mod 16)%N) acc)
  end.

Definition ObjectId_str (n : N) : string := hex_digits 24 n "".

(** ** The libraries

    The pure functions of passlib, PyJWT, json and datetime that the
    handlers call. They are an interface: the handlers and the theorems are
    stated for every implementation of it. *)

Class Libraries := {
  (** [pwd_context.hash], given the salt it draws ([None]: the hasher
      refuses the password and raises), and [pwd_context.verify] of a
      password against a hash *)
  pwd_hash : string → string → option string;
  pwd_verify : string → string → bool;
  (** the signature PyJWT computes for an algorithm, a key and the claims *)
  jws_sign : string → string → claims → string;
  (** [json.dumps] and [json.loads] on a task listing; [None]: the string
      does not decode and [json.loads] raises *)
  json_dumps : list task_json → string;
  json_loads : string → option (list task_json);
  (** [datetime.isoformat] with its separator *)
  isoformat : ascii → Z → string
}.

(** ** The application *)

Section App.

Context `{Libraries}.

(** *** PyJWT *)

Definition jwt_encode (payload : claims) (k : string) (algorithm : string)
  : token :=
  JWS algorithm payload (jws_sign algorithm k payload).

(** A date claim that lies after [now]. *)
Definition in_future (now : Z) (t : option Z) : bool :=
  match t with Some t => now <? t | None => false end.

(** An expiry that [now] has reached. *)
Definition has_expired (now : Z) (t : option Z) : bool :=
  match t with Some t => t <=? now | None => false end.

(** Python's truth value of the audience claim: absent, the empty string and
    the empty list are false. *)
Definition names_audience (a : option audience) : bool :=
  match a with
  | Some (AudStr a) => negb (String.eqb a "")
  | Some (AudList l) => negb (bool_decide (l = []))
  | None => false
  end.

(** The validation of the claims, in PyJWT's order and with its default
    options, where no audience is expected: "iat" and "nbf" must not lie in
    the future, "exp" must not have been reached, and the token must not
    name an audience. The result is the error raised, if any. *)
Definition validate_claims (now : Z) (payload : claims) : option jwt_error :=
  if in_future now (iat payload) then Some ImmatureSignatureError
  else if in_future now (nbf payload) then Some ImmatureSignatureError
  else if has_expired now (exp payload) then Some ExpiredSignatureError
  else if names_audience (aud payload) then Some InvalidAudienceError
  else None.

(** [jwt.decode(token, key, algorithms)] at time [now]: the algorithm of the
    header must be allowed, then the signature must verify, then the claims
    must be valid. *)
Definition jwt_decode (now : Z) (t : token) (k : string)
    (algorithms : list string) : jwt_error + claims :=
  match t with
  | Opaque _ => inl DecodeError
  | JWS alg payload sig =>
      if negb (bool_decide (alg ∈ algorithms)) then inl InvalidAlgorithmError
      else if negb (String.eqb sig (jws_sign alg k payload))
      then inl InvalidSignatureError
      else match validate_claims now payload with
           | Some error => inl error
           | None => inr payload
           end
  end.

(** *** main.py, lines 71-73 *)

Definition create_jwt_token (now : Z) (username : string) : token :=
  let token_data :=
    {| sub := Some username;
       exp := Some (now + ACCESS_TOKEN_EXPIRE_HOURS * 3600);
       nbf := None; iat := None; aud := None |} in
  jwt_encode token_data SECRET_KEY ALGORITHM.

(** *** main.py, lines 77-91 *)

Definition get_current_user (now : Z) (request : Request) : outcome string :=
  match cookies request !! "access_token" with
  | None => HTTPException 401 "Not authenticated"
  | Some token =>
      if negb (token_truthy token)
      then HTTPException 401 "Not authenticated"
      else
        match jwt_decode now token SECRET_KEY [ALGORITHM] with
        | inr payload =>
            match sub payload with
            | None => HTTPException 401 "Invalid token"
            | Some username => Return username
            end
        | inl ExpiredSignatureError => HTTPException 401 "Token expired"
        | inl _ => HTTPException 401 "Invalid token"
        end
  end.

Definition session_cookie (t : token) : cookie :=
  {| key := "access_token";
     value := t;
     httponly := true;
     max_age := ACCESS_TOKEN_EXPIRE_HOURS * 3600;
     samesite := "Lax" |}.

(** *** main.py, lines 95-117 *)

(** [pwd_context.hash(password)] with the bcrypt scheme: passlib refuses a
    password that contains a NUL byte and raises; the library may refuse
    others. [None] is the exception. *)
Fixpoint contains_NUL (s : string) : bool :=
  match s with
  | EmptyString => false
  | String c s' => Ascii.eqb c Ascii.zero || contains_NUL s'
  end.

Definition pwd_context_hash (salt : string) (secret : string) : option string :=
  if contains_NUL secret then None else pwd_hash salt secret.

(** The hash is computed first, at line 97: when it raises, nothing else of
    the handler runs. *)
Definition register (e : env) (user : User) (response : Response)
  : handler (JSONResponse * Response) :=
  match pwd_context_hash (new_salt e) (password user) with
  | None => throw "ValueError"
  | Some hash =>
      let user := {| username := username user; password := hash |} in
      existing_user <- users_find_one {[ "username" := BStr (username user) ]} ;;
      match existing_user with
      | Some _ => raise 400 "Username already exists"
      | None =>
          users_insert_one e user ;;
          let token := create_jwt_token (utcnow e) (username user) in
          let response := set_cookie (session_cookie token) response in
          ret ({| body := [("message", JStr "User registered successfully");
                           ("access_token", JToken token)];
                  status_code := 201 |}, response)
      end
  end.

(** *** main.py, lines 121-140 *)

Definition login (e : env) (user : User) (response : Response)
  : handler (JSONResponse * Response) :=
  db_user <- users_find_one {[ "username" := BStr (username user) ]} ;;
  match db_user with
  | None => raise 401 "Invalid credentials"
  | Some db_user =>
      if negb (pwd_verify (password user) (u_password db_user))
      then raise 401 "Invalid credentials"
      else
        let token := create_jwt_token (utcnow e) (username user) in
        let response := set_cookie (session_cookie token) response in
        ret ({| body := [("message", JStr "User logged in successfully");
                         ("access_token", JToken token)];
                status_code := 201 |}, response)
  end.

(** *** main.py, lines 144-147 *)

Definition logout (response : Response) : handler (content * Response) :=
  let response := delete_cookie "access_token" response in
  ret ([("message", JStr "Logged out successfully")], response).

(** *** main.py, lines 151-160 *)

(** [str(result.inserted_id)] and [str(task["_id"])]: Python's [str] on the
    value of an "_id" field. *)
Definition py_str (v : bson) : string :=
  match v with
  | BNull => "None"
  | BStr s => s
  | BObjectId n => ObjectId_str n
  | BDatetime t => isoformat " " t
  end.

Definition create_task (e : env) (task : TaskSchema) : handler content :=
  inserted_id <- tasks_insert_one e task (utcnow e) ;;
  ret [("message", JStr "Task created"); ("task_id", JStr (py_str inserted_id))].

(** *** main.py, lines 164-189 *)

(** Python's truth value of what [redis_client.get] returns: [None] and the
    empty string are false. *)
Definition truthy (o : option string) : bool :=
  match o with
  | Some s => negb (String.eqb s "")
  | None => false
  end.

Definition build_query (status : option StatusEnum)
    (priority : option PriorityEnum) : gmap string bson :=
  let query : gmap string bson := ∅ in
  let query := match status with
               | Some st => <[ "status" := BStr (status_value st) ]> query
               | None => query
               end in
  let query := match priority with
               | Some pr => <[ "priority" := BStr (priority_value pr) ]> query
               | None => query
               end in
  query.

(** The body of the loop at lines 182-184. *)
Definition serializable (task : task_doc) : task_json :=
  {| j_id := py_str (t_id task);
     j_title := t_title task;
     j_description := t_description task;
     j_status := t_status task;
     j_priority := t_priority task;
     j_created_at := isoformat "T" (t_created_at task) |}.

Definition get_tasks (e : env) (status : option StatusEnum)
    (priority : option PriorityEnum) : handler (list task_json) :=
  cached_tasks <- redis_get e "tasks" ;;
  if truthy cached_tasks
  then
    match json_loads (default "" cached_tasks) with
    | Some l => ret l
    | None => throw "JSONDecodeError"
    end
  else
    let query := build_query status priority in
    tasks <- tasks_find query 100 ;;
    let tasks := serializable <$> tasks in
    redis_setex e "tasks" 60 (json_dumps tasks) ;;
    ret tasks.

(** *** main.py, lines 192-201 *)

Definition update_task (task_id : string) (task : TaskSchema)
  : handler content :=
  modified_count <- tasks_update_one {[ "_id" := BStr task_id ]} task ;;
  if (modified_count =? 0)%nat
  then raise 404 "Task not found"
  else
    redis_delete "tasks" ;;
    ret [("message", JStr "Task updated")].

(** *** main.py, lines 205-214 *)

Definition delete_task (task_id : string) : handler content :=
  deleted_count <- tasks_delete_one {[ "_id" := BStr task_id ]} ;;
  if (deleted_count =? 0)%nat
  then raise 404 "Task not found"
  else
    redis_delete "tasks" ;;
    ret [("message", JStr "Task deleted")].

(** *** main.py, lines 218-223; [username] is what the dependency
    [get_current_user] returned *)

Definition get_user (username : string) : handler content :=
  user <- users_find_one {[ "username" := BStr username ]} ;;
  match user with
  | Some _ => ret [("message", JStr ("Hello " ++ username ++ ", welcome back!"))]
  | None => ret [("message", JStr "User not found")]
  end.

(** *** main.py, lines 227-229 *)

(** The greeting ends with the four characters the source file has there,
    as the bytes of their UTF-8 encoding. *)
Definition root : handler content :=
  ret [("Hello World", JStr "Welcome to FastAPI Task Manager! ðŸš€")].

(** *** The routes (the decorators and the signatures of the handlers)

    A handler receives what its signature declares: the parsed body, path
    and query parameters, a fresh [response] where it asks for one, and the
    result of [get_current_user] on the request where it depends on it. *)

Inductive route :=
| POST_register (user : User)
| POST_login (user : User)
| POST_logout
| POST_tasks (task : TaskSchema)
| GET_tasks (status : option StatusEnum) (priority : option PriorityEnum)
| PUT_tasks (task_id : string) (task : TaskSchema)
| DELETE_tasks (task_id : string)
| GET_user
| GET_root.

(** What a handler hands back: a response object of its own, a dict, or the
    task listing; and the [response] parameter as the handler leaves it. *)
Inductive returned :=
| Direct (r : JSONResponse)
| Dict (c : content)
| Listing (l : list task_json).

Definition app (e : env) (r : route) (request : Request)
  : handler (returned * Response) :=
  match r with
  | POST_register user =>
      p <- register e user [] ;; ret (Direct p.1, p.2)
  | POST_login user =>
      p <- login e user [] ;; ret (Direct p.1, p.2)
  | POST_logout =>
      p <- logout [] ;; ret (Dict p.1, p.2)
  | POST_tasks task =>
      c <- create_task e task ;; ret (Dict c, [])
  | GET_tasks status priority =>
      l <- get_tasks e status priority ;; ret (Listing l, [])
  | PUT_tasks task_id task =>
      c <- update_task task_id task ;; ret (Dict c, [])
  | DELETE_tasks task_id =>
      c <- delete_task task_id ;; ret (Dict c, [])
  | GET_user =>
      username <- lift (get_current_user (utcnow e) request) ;;
      c <- get_user username ;; ret (Dict c, [])
  | GET_root =>
      c <- root ;; ret (Dict c, [])
  end.

(** The state after a sequence of requests, served one after the other. *)
Fixpoint serve (l : list (env * route * Request)) (s : state) : state :=
  match l with
  | [] => s
  | (e, r, request) :: l' => serve l' (app e r request s).2
  end.

End App.

(** ** Sample data, for the examples *)

(** A listing as a string, for the sample library: the tasks between
    brackets and apart by semicolons, the six fields of a task apart by
    bars, an absent description as a tilde. It is read back as it was
    written when no field holds one of these characters. *)
Fixpoint split_on (sep : ascii) (s : string) : list string :=
  match s with
  | EmptyString => [EmptyString]
  | String c s' =>
      if Ascii.eqb c sep then EmptyString :: split_on sep s'
      else match split_on sep s' with
           | h :: t => String c h :: t
           | [] => [String c EmptyString]
           end
  end.

Definition dump_task (j : task_json) : string :=
  String.concat "|"
    [j_id j; j_title j;
     match j_description j with Some d => "=" ++ d | None => "~" end;
     j_status j; j_priority j; j_created_at j].

Definition parse_task (s : string) : option task_json :=
  match split_on "|" s with
  | [i; t; d; st; pr; c] =>
      match d with
      | String "~" EmptyString =>
          Some {| j_id := i; j_title := t; j_description := None;
                  j_status := st; j_priority := pr; j_created_at := c |}
      | String "=" d' =>
          Some {| j_id := i; j_title := t; j_description := Some d';
                  j_status := st; j_priority := pr; j_created_at := c |}
      | _ => None
      end
  | _ => None
  end.

Fixpoint before_closing_bracket (s : string) : option string :=
  match s with
  | EmptyString => None
  | String c EmptyString => if Ascii.eqb c "]" then Some EmptyString else None
  | String c s' => String c <$> before_closing_bracket s'
  end.

Definition toy_dumps (l : list task_json) : string :=
  "[" ++ String.concat ";" (dump_task <$> l) ++ "]".

Definition toy_loads (s : string) : option (list task_json) :=
  match s with
  | String "[" rest =>
      match before_closing_bracket rest with
      | Some EmptyString => Some []
      | Some inner => mapM parse_task (split_on ";" inner)
      | None => None
      end
  | _ => None
  end.

(** An implementation of the libraries that is small enough to run: the hash
    of a password is the password behind a mark, a signature names the key
    and the subject, a listing is written and read as above, a time is
    printed as its seconds in hexadecimal. *)
Definition toy_libraries : Libraries := {|
  pwd_hash := λ salt pw, Some ("$toy$" ++ pw);
  pwd_verify := λ pw h, String.eqb h ("$toy$" ++ pw);
  jws_sign := λ alg k c, alg ++ ":" ++ k ++ ":" ++ default "" (sub c);
  json_dumps := toy_dumps;
  json_loads := toy_loads;
  isoformat := λ sep t, "epoch" ++ String sep (hex_digits 8 (Z.to_N t) "")
|}.

Definition empty_state : state :=
  {| db_users := []; db_tasks := []; redis_client := ∅ |}.

Definition env0 : env :=
  {| utcnow := 1000; new_oid := 255; new_salt := "salt" |}.

Definition alice : User := {| username := "alice"; password := "wonderland" |}.

Definition buy_milk : TaskSchema :=
  {| title := "Buy milk"; description := None;
     status := pending; priority := low |}.

Definition milk_bought : TaskSchema :=
  {| title := "Buy milk"; description := None;
     status := completed; priority := low |}.

Definition no_cookie : Request := {| cookies := ∅ |}.

(** A stored task whose "_id" is a string, as another client of the same
    collection may have inserted it. *)
Definition string_keyed_task : task_doc :=
  {| t_id := BStr "t1"; t_title := "Buy milk"; t_description := None;
     t_status := "pending"; t_priority := "low"; t_created_at := 0 |}.

Definition string_keyed_state : state :=
  {| db_users := []; db_tasks := [string_keyed_task]; redis_client := ∅ |}.

(** A store with a task the application created, a task keyed by a string
    and a task of another priority, and no cached listing. *)
Definition mixed_state : state :=
  {| db_users := [];
     db_tasks :=
       [ {| t_id := BObjectId 255; t_title := "Buy milk";
            t_description := None; t_status := "pending";
            t_priority := "low"; t_created_at := 1000 |};
         {| t_id := BStr "t2"; t_title := "Walk";
            t_description := Some "the dog"; t_status := "completed";
            t_priority := "high"; t_created_at := 5 |};
         string_keyed_task ];
     redis_client := ∅ |}.

(** A state whose cache holds a listing until time 1060. *)
Definition cached_state : state :=
  {| db_users := [];
     db_tasks := [string_keyed_task];
     redis_client := {[ "tasks" := ("[]", Some 1060) ]} |}.

(** Three requests without cookies: a listing at time 1000, the creation of
    a task at time 1010, and a listing at time [t]. *)
Definition list_create_list (t : Z) : list (env * route * Request) :=
  [ ({| utcnow := 1000; new_oid := 1; new_salt := "" |},
     GET_tasks None None, no_cookie);
    ({| utcnow := 1010; new_oid := 255; new_salt := "" |},
     POST_tasks buy_milk, no_cookie);
    ({| utcnow := t; new_oid := 2; new_salt := "" |},
     GET_tasks None None, no_cookie) ].

(** The answers to a sequence of requests, served one after the other. *)
Fixpoint answers `{Libraries} (l : list (env * route * Request)) (s : state)
  : list (outcome (returned * Response)) :=
  match l with
  | [] => []
  | (e, r, request) :: l' =>
      (app e r request s).1 :: answers l' (app e r request s).2
  end.

(** ** Invariants and the words of the specification *)

(** Every task of the collection has an ObjectId as "_id": so it is for the
    tasks the application inserts. *)
Definition oid_keyed (c : list task_doc) : Prop :=
  Forall (λ d, ∃ n, t_id d = BObjectId n) c.

(** The document [create_task] inserts. *)
Definition created_doc (e : env) (task : TaskSchema) : task_doc :=
  {| t_id := BObjectId (new_oid e);
     t_title := title task;
     t_description := description task;
     t_status := status_value (status task);
     t_priority := priority_value (priority task);
     t_created_at := utcnow e |}.

(** "equality filters for exactly the supplied status and/or priority". *)
Definition selected (st : option StatusEnum) (pr : option PriorityEnum)
    (d : task_doc) : bool :=
  match st with Some x => String.eqb (t_status d) (status_value x) | None => true end
  && match pr with Some y => String.eqb (t_priority d) (priority_value y) | None => true end.

(** "the username already exists in the credential store". *)
Definition username_exists (u : string) (s : state) : Prop :=
  ∃ d, d ∈ db_users s ∧ u_username d = u.

(** The task routes. *)
Definition task_route (r : route) : bool :=
  match r with
  | POST_tasks _ | GET_tasks _ _ | PUT_tasks _ _ | DELETE_tasks _ => true
  | _ => false
  end.

(** The cached listing, when there is one, is not the empty string. *)
Definition cache_truthy (s : state) : Prop :=
  ∀ v t, redis_client s !! "tasks" = Some (v, t) → v ≠ "".

Section Outcomes.

Context `{Libraries}.

(** What [get_tasks] makes of a cached string. *)
Definition decoded (v : string) : outcome (list task_json) :=
  match json_loads v with
  | Some l => Return l
  | None => Uncaught "JSONDecodeError"
  end.

(** The document [register] inserts, given the hash of the password. *)
Definition registered_doc (e : env) (user : User) (hash : string) : user_doc :=
  {| u_id := BObjectId (new_oid e);
     u_username := username user;
     u_password := hash |}.

(** The state [register] leaves when it succeeds. *)
Definition registered (e : env) (user : User) (hash : string) (s : state)
  : state :=
  {| db_users := (db_users s ++ [registered_doc e user hash])%list;
     db_tasks := db_tasks s;
     redis_client := redis_client s |}.

(** The answer of a successful [register] or [login]. *)
Definition session_response (message : string) (t : token)
    (response : Response) : JSONResponse * Response :=
  ({| body := [("message", JStr message); ("access_token", JToken t)];
      status_code := 201 |},
   (response ++ [SetCookie (session_cookie t)])%list).

End Outcomes.

(** For [update_task] and [delete_task]: a success has deleted the cache
    entry, a failure is a 404 that left the whole state, and so the cache,
    as it was. *)
Definition invalidates_on_success (r : outcome content * state) (s : state)
  : Prop :=
  match r with
  | (Return _, s') =>
      redis_client s' = Redis.delete "tasks" (redis_client s)
      ∧ ∀ now, Redis.get now "tasks" (redis_client s') = None
  | (HTTPException code detail, s') =>
      code = 404%nat ∧ detail = "Task not found" ∧ s' = s
  | (Uncaught _, _) => False
  end.

(** ** More words, for the properties beyond the claims *)

(** The member of an enum that has a given value, as [StatusEnum(v)] and
    [PriorityEnum(v)] look it up (main.py, lines 45-53); [None] where Python
    raises [ValueError]. *)
Definition StatusEnum_of_value (v : string) : option StatusEnum :=
  if String.eqb v "pending" then Some pending
  else if String.eqb v "completed" then Some completed
  else None.

Definition PriorityEnum_of_value (v : string) : option PriorityEnum :=
  if String.eqb v "low" then Some low
  else if String.eqb v "medium" then Some medium
  else if String.eqb v "high" then Some high
  else None.

(** The status and the priority of a stored task are values of the enums. *)
Definition enum_valued (d : task_doc) : Prop :=
  is_Some (StatusEnum_of_value (t_status d))
  ∧ is_Some (PriorityEnum_of_value (t_priority d)).

(** No two stored users have the same username. *)
Definition usernames_unique (s : state) : Prop :=
  NoDup (u_username <$> db_users s).

(** The dict [get_user] returns for a stored user. *)
Definition greeting (username : string) : content :=
  [("message", JStr ("Hello " ++ username ++ ", welcome back!"))].

(** The token that carries given claims under the key and the algorithm of
    the application. *)
Definition signed `{Libraries} (payload : claims) : token :=
  JWS ALGORITHM payload (jws_sign ALGORITHM SECRET_KEY payload).

(** What [get_tasks] computes from the store when it does not use the
    cache. *)
Definition fresh_listing `{Libraries} (st : option StatusEnum)
    (pr : option PriorityEnum) (c : list task_doc) : list task_json :=
  serializable <$> take 100 (filter (λ d : task_doc, selected st pr d) c).

(** A user with a taken name, a user that is stored, and a state that
    stores the latter with the hash the sample library gives. *)
Definition bob : User := {| username := "bob"; password := "builder" |}.

(** The stored username, with a password that has a NUL byte in it. *)
Definition nul_alice : User :=
  {| username := "alice";
     password := "wonder" ++ String Ascii.zero "land" |}.

Definition alice_state : state :=
  {| db_users := [ {| u_id := BObjectId 7; u_username := "alice";
                      u_password := "$toy$wonderland" |} ];
     db_tasks := [];
     redis_client := ∅ |}.

(** A request whose cookie is a token for bob with no expiry, signed as the
    sample library signs. *)
Definition bob_request : Request :=
  {| cookies := {[ "access_token" :=
       signed (H := toy_libraries)
         {| sub := Some "bob"; exp := None;
            nbf := None; iat := None; aud := None |} ]} |}.



(** A request whose cookie is the token issued to alice at time 1000. *)
Definition alice_request : Request :=
  {| cookies := {[ "access_token" :=
       create_jwt_token (H := toy_libraries) 1000 "alice" ]} |}.

Definition env_4599 : env := {| utcnow := 4599; new_oid := 0; new_salt := "" |}.

Definition env_1059 : env := {| utcnow := 1059; new_oid := 0; new_salt := "" |}.

Definition t2_task : task_doc :=
  {| t_id := BStr "t2"; t_title := "Walk"; t_description := Some "the dog";
     t_status := "completed"; t_priority := "high"; t_created_at := 5 |}.

Definition two_tasks_state : state :=
  {| db_users := [];
     db_tasks := [string_keyed_task; t2_task];
     redis_client := {[ "tasks" := ("[]", Some 1060);
                        "other" := ("kept", None) ]} |}.

(** * Properties *)

(** ** Filters *)

Section Filters.

Lemma matches_singleton `{Document D} (k : string) (v : bson) (d : D) :
  Mongo.matches {[ k := v ]} d = bool_decide (doc_get d k = Some v).
Proof.
  unfold Mongo.matches. apply bool_decide_ext.
  rewrite map_Forall_singleton. reflexivity.
Qed.

Lemma matches_id (v : bson) (d : task_doc) :
  Mongo.matches {[ "_id" := v ]} d = bool_decide (t_id d = v).
Proof.
  rewrite matches_singleton. apply bool_decide_ext.
  cbn. split; congruence.
Qed.

Lemma matches_username (u : string) (d : user_doc) :
  Mongo.matches {[ "username" := BStr u ]} d = bool_decide (u_username d = u).
Proof.
  rewrite matches_singleton. apply bool_decide_ext.
  cbn. split; congruence.
Qed.

Lemma update_one_no_match `{Document D} `{EqDecision D}
    (q : gmap string bson) (u : D → D) (c : list D) :
  Forall (λ d, Mongo.matches q d = false) c → Mongo.update_one q u c = (c, 0%nat).
Proof.
  induction 1 as [|d c Hd _ IH]; cbn; [reflexivity|].
  rewrite Hd, IH. reflexivity.
Qed.

Lemma delete_one_no_match `{Document D} (q : gmap string bson) (c : list D) :
  Forall (λ d, Mongo.matches q d = false) c → Mongo.delete_one q c = (c, 0%nat).
Proof.
  induction 1 as [|d c Hd _ IH]; cbn; [reflexivity|].
  rewrite Hd, IH. reflexivity.
Qed.

Lemma oid_keyed_no_match (task_id : string) (c : list task_doc) :
  oid_keyed c →
  Forall (λ d, Mongo.matches {[ "_id" := BStr task_id ]} d = false) c.
Proof.
  intros Hc. eapply Forall_impl; [exact Hc|]. intros d [n Hn].
  rewrite matches_id, Hn. apply bool_decide_eq_false_2. discriminate.
Qed.

End Filters.

(** ** Unfolding a handler *)

Ltac unfold_handler :=
  unfold app, register, login, logout, create_task, get_tasks, update_task,
    delete_task, get_user, root, bind, ret, raise, throw, lift,
    users_find_one, users_insert_one, tasks_insert_one, tasks_find,
    tasks_update_one, tasks_delete_one, redis_get, redis_setex, redis_delete.

Lemma state_eta (s : state) :
  {| db_users := db_users s; db_tasks := db_tasks s;
     redis_client := redis_client s |} = s.
Proof. destruct s; reflexivity. Qed.

(** ** Identifiers: tasks the application created cannot be addressed *)

Section Identifiers.

Context `{Libraries}.

Lemma update_task_oid_keyed (task_id : string) (task : TaskSchema) (s : state) :
  oid_keyed (db_tasks s) →
  update_task task_id task s = (HTTPException 404 "Task not found", s).
Proof.
  intros Hk. unfold_handler.
  rewrite (update_one_no_match _ _ _ (oid_keyed_no_match task_id _ Hk)).
  cbn. rewrite state_eta. reflexivity.
Qed.

Lemma delete_task_oid_keyed (task_id : string) (s : state) :
  oid_keyed (db_tasks s) →
  delete_task task_id s = (HTTPException 404 "Task not found", s).
Proof.
  intros Hk. unfold_handler.
  rewrite (delete_one_no_match _ _ (oid_keyed_no_match task_id _ Hk)).
  cbn. rewrite state_eta. reflexivity.
Qed.

(** While every stored task has an ObjectId, a request only ever appends
    tasks, and these have an ObjectId too. *)
Lemma app_tasks_grow (e : env) (r : route) (request : Request) (s : state) :
  oid_keyed (db_tasks s) →
  ∃ extra, db_tasks (app e r request s).2 = (db_tasks s ++ extra)%list
           ∧ oid_keyed extra.
Proof.
  intros Hk. destruct r.
  - exists []. rewrite app_nil_r. split; [|constructor].
    unfold_handler. destruct (pwd_context_hash _ _); [|reflexivity].
    destruct (Mongo.find_one _ _); reflexivity.
  - exists []. rewrite app_nil_r. split; [|constructor].
    unfold_handler. destruct (Mongo.find_one _ _) as [d|]; [|reflexivity].
    destruct (pwd_verify _ _); reflexivity.
  - exists []. rewrite app_nil_r. split; [|constructor]. reflexivity.
  - exists [created_doc e task]. split; [reflexivity|].
    repeat constructor. eexists; reflexivity.
  - exists []. rewrite app_nil_r. split; [|constructor].
    unfold_handler. destruct (truthy _); [|reflexivity].
    destruct (json_loads _); reflexivity.
  - exists []. rewrite app_nil_r. split; [|constructor].
    unfold app. unfold bind at 1. rewrite update_task_oid_keyed by assumption. reflexivity.
  - exists []. rewrite app_nil_r. split; [|constructor].
    unfold app. unfold bind at 1. rewrite delete_task_oid_keyed by assumption. reflexivity.
  - exists []. rewrite app_nil_r. split; [|constructor].
    unfold_handler. destruct (get_current_user _ _); [|reflexivity..].
    destruct (Mongo.find_one _ _); reflexivity.
  - exists []. rewrite app_nil_r. split; [|constructor]. reflexivity.
Qed.

Lemma serve_tasks_grow (l : list (env * route * Request)) (s : state) :
  oid_keyed (db_tasks s) →
  ∃ extra, db_tasks (serve l s) = (db_tasks s ++ extra)%list ∧ oid_keyed extra.
Proof.
  revert s. induction l as [|[[e r] request] l IH]; intros s Hk; cbn.
  - exists []. rewrite app_nil_r. split; [reflexivity|constructor].
  - destruct (app_tasks_grow e r request s Hk) as (x1 & E1 & K1).
    destruct (IH (app e r request s).2) as (x2 & E2 & K2).
    { rewrite E1. apply Forall_app; split; assumption. }
    exists (x1 ++ x2)%list. split.
    + rewrite E2, E1, <- app_assoc. reflexivity.
    + apply Forall_app; split; assumption.
Qed.

(** C1. [create_task] returns, as "task_id", the string form of the ObjectId
    the store gave the new task. [update_task] and [delete_task] compare the
    string of the path with the stored "_id": in a collection all of whose
    tasks are keyed by an ObjectId, after any further requests, an update or
    a delete with the identifier [create_task] returned fails with 404
    "Task not found", changes nothing, and the created task is still
    stored. *)
Theorem created_id_is_never_found
    (e : env) (task : TaskSchema) (s0 : state)
    (later : list (env * route * Request)) :
  oid_keyed (db_tasks s0) →
  let task_id := ObjectId_str (new_oid e) in
  let s := serve later (create_task e task s0).2 in
  (create_task e task s0).1
    = Return [("message", JStr "Task created"); ("task_id", JStr task_id)]
  ∧ created_doc e task ∈ db_tasks (create_task e task s0).2
  ∧ created_doc e task ∈ db_tasks s
  ∧ (∀ task', update_task task_id task' s
              = (HTTPException 404 "Task not found", s))
  ∧ delete_task task_id s = (HTTPException 404 "Task not found", s).
Proof.
  intros Hk task_id s.
  assert (Hk1 : oid_keyed (db_tasks (create_task e task s0).2)).
  { cbn. apply Forall_app. split; [assumption|].
    repeat constructor. eexists; reflexivity. }
  destruct (serve_tasks_grow later _ Hk1) as (extra & E & Kx).
  assert (Hks : oid_keyed (db_tasks s)).
  { subst s. rewrite E. apply Forall_app; split; assumption. }
  split; [reflexivity|]. split; [|split; [|split]].
  - cbn. apply elem_of_app. right. apply list_elem_of_singleton. reflexivity.
  - subst s. rewrite E. apply elem_of_app. left.
    cbn. apply elem_of_app. right. apply list_elem_of_singleton. reflexivity.
  - intros task'. apply update_task_oid_keyed, Hks.
  - apply delete_task_oid_keyed, Hks.
Qed.

End Identifiers.

Lemma created_id_is_never_found_witness :
  oid_keyed (db_tasks empty_state)
  ∧ update_task (ObjectId_str 255) buy_milk
      (serve (H := toy_libraries) [] (create_task (H := toy_libraries) env0 buy_milk empty_state).2)
    = (HTTPException 404 "Task not found",
       serve (H := toy_libraries) [] (create_task (H := toy_libraries) env0 buy_milk empty_state).2).
Proof.
  split; [constructor|].
  apply (created_id_is_never_found (H := toy_libraries)
           env0 buy_milk empty_state []).
  constructor.
Defined.

(** ** The task listing and its cache *)

Section Listing.

Context `{Libraries}.

Lemma get_tasks_hit (e : env) (st : option StatusEnum)
    (pr : option PriorityEnum) (s : state) :
  truthy (Redis.get (utcnow e) "tasks" (redis_client s)) = true →
  get_tasks e st pr s
  = (decoded (default "" (Redis.get (utcnow e) "tasks" (redis_client s))), s).
Proof.
  intros Hhit. unfold_handler. rewrite Hhit. unfold decoded.
  destruct (json_loads _); reflexivity.
Qed.

(** C2. While [redis_client.get("tasks")] returns a value (a string that is
    not empty, which is what the handler tests), [get_tasks] returns that
    value, decoded, and leaves the state as it is, whatever the status and
    priority filters: two calls with different filters return the same. *)
Theorem cached_listing_ignores_filters (e : env) (s : state) (v : string) :
  Redis.get (utcnow e) "tasks" (redis_client s) = Some v →
  v ≠ "" →
  (∀ st pr, get_tasks e st pr s = (decoded v, s))
  ∧ (∀ st pr st' pr', get_tasks e st pr s = get_tasks e st' pr' s).
Proof.
  intros Hget Hv.
  assert (Hhit : truthy (Redis.get (utcnow e) "tasks" (redis_client s)) = true).
  { rewrite Hget. cbn. apply negb_true_iff, String.eqb_neq, Hv. }
  split.
  - intros st pr. rewrite get_tasks_hit by assumption. rewrite Hget. reflexivity.
  - intros st pr st' pr'. rewrite !get_tasks_hit by assumption. reflexivity.
Qed.

(** C5. [create_task] leaves the cache as it is, entry or no entry; so
    while the entry is served, the listing after the creation is the listing
    before it. *)
Theorem create_task_keeps_cache (e : env) (task : TaskSchema) (s : state) :
  redis_client (create_task e task s).2 = redis_client s
  ∧ (∀ e' st pr,
       truthy (Redis.get (utcnow e') "tasks" (redis_client s)) = true →
       (get_tasks e' st pr (create_task e task s).2).1
       = (get_tasks e' st pr s).1).
Proof.
  split; [reflexivity|].
  intros e' st pr Hhit.
  rewrite (get_tasks_hit e' st pr s Hhit).
  rewrite (get_tasks_hit e' st pr (create_task e task s).2 Hhit).
  reflexivity.
Qed.

Lemma build_query_Forall (P : string → bson → Prop)
    (st : option StatusEnum) (pr : option PriorityEnum) :
  map_Forall P (build_query st pr)
  ↔ (∀ x, st = Some x → P "status" (BStr (status_value x)))
    ∧ (∀ y, pr = Some y → P "priority" (BStr (priority_value y))).
Proof.
  unfold build_query. destruct st as [x|], pr as [y|].
  - rewrite map_Forall_insert
      by (rewrite lookup_insert_ne by discriminate; apply lookup_empty).
    rewrite map_Forall_insert by apply lookup_empty.
    split.
    + intros (Hp & Hs & _). split; intros ? [= <-]; assumption.
    + intros [Hs Hp]. split; [auto|]. split; [auto|]. apply map_Forall_empty.
  - rewrite map_Forall_insert by apply lookup_empty.
    split.
    + intros (Hs & _). split; [intros ? [= <-]; assumption|discriminate].
    + intros [Hs _]. split; [auto|]. apply map_Forall_empty.
  - rewrite map_Forall_insert by apply lookup_empty.
    split.
    + intros (Hp & _). split; [discriminate|intros ? [= <-]; assumption].
    + intros [_ Hp]. split; [auto|]. apply map_Forall_empty.
  - split; [intros _; split; discriminate|intros _; apply map_Forall_empty].
Qed.

(** The query [get_tasks] builds selects by equality on exactly the filters
    that were supplied. *)
Lemma matches_build_query (st : option StatusEnum) (pr : option PriorityEnum)
    (d : task_doc) :
  Mongo.matches (build_query st pr) d ↔ selected st pr d.
Proof.
  unfold Mongo.matches, selected.
  rewrite bool_decide_spec, build_query_Forall, andb_True. cbn.
  f_equiv.
  - destruct st as [x|]; cbn.
    + rewrite Is_true_true, String.eqb_eq. split.
      * intros Hx. specialize (Hx x eq_refl). congruence.
      * intros Hx ? [= <-]. congruence.
    + split; [constructor|discriminate].
  - destruct pr as [y|]; cbn.
    + rewrite Is_true_true, String.eqb_eq. split.
      * intros Hy. specialize (Hy y eq_refl). congruence.
      * intros Hy ? [= <-]. congruence.
    + split; [constructor|discriminate].
Qed.

(** C6. On a cache miss, [get_tasks] selects the tasks that are equal to the
    supplied status and priority, keeps the first 100, and turns each into a
    dict in which the identifier is a string (the 24 hexadecimal digits of
    an ObjectId, a string as it is) and the creation time is its ISO form,
    the other four fields being as stored; it stores the serialized result
    under the key "tasks", where it is read for 60 seconds and no longer,
    and returns the result. *)
Theorem listing_on_cache_miss (e : env) (st : option StatusEnum)
    (pr : option PriorityEnum) (s : state) :
  truthy (Redis.get (utcnow e) "tasks" (redis_client s)) = false →
  let result : list task_json :=
    (λ d : task_doc,
       {| j_id := match t_id d with
                  | BObjectId n => ObjectId_str n
                  | BStr i => i
                  | BNull => "None"
                  | BDatetime t => isoformat " " t
                  end;
          j_title := t_title d;
          j_description := t_description d;
          j_status := t_status d;
          j_priority := t_priority d;
          j_created_at := isoformat "T" (t_created_at d) |})
    <$> take 100 (filter (λ d : task_doc, selected st pr d) (db_tasks s)) in
  let r := get_tasks e st pr s in
  r.1 = Return result
  ∧ db_users r.2 = db_users s
  ∧ db_tasks r.2 = db_tasks s
  ∧ redis_client r.2
    = <[ "tasks" := (json_dumps result, Some (utcnow e + 60)) ]> (redis_client s)
  ∧ (List.length result ≤ 100)%nat
  ∧ (∀ now, now < utcnow e + 60 →
            Redis.get now "tasks" (redis_client r.2) = Some (json_dumps result))
  ∧ (∀ now, utcnow e + 60 ≤ now →
            Redis.get now "tasks" (redis_client r.2) = None).
Proof.
  intros Hmiss result r.
  assert (Hr : r = (Return result,
                    {| db_users := db_users s; db_tasks := db_tasks s;
                       redis_client :=
                         Redis.setex (utcnow e) "tasks" 60 (json_dumps result)
                           (redis_client s) |})).
  { subst r result. unfold_handler. rewrite Hmiss. cbn. unfold Mongo.find.
    rewrite (list_filter_iff _ (λ d, selected st pr d))
      by (intros d; apply matches_build_query).
    reflexivity. }
  rewrite Hr. cbn. unfold Redis.setex.
  repeat split.
  - subst result. rewrite length_fmap, length_take. lia.
  - intros now Hnow. unfold Redis.get. rewrite lookup_insert_eq.
    unfold Redis.live. cbn. rewrite bool_decide_eq_true_2 by assumption.
    reflexivity.
  - intros now Hnow. unfold Redis.get. rewrite lookup_insert_eq.
    unfold Redis.live. cbn. rewrite bool_decide_eq_false_2 by lia.
    reflexivity.
Qed.

End Listing.

Lemma cached_listing_ignores_filters_witness :
  Redis.get (utcnow env0) "tasks" (redis_client cached_state) = Some "[]"
  ∧ "[]" ≠ ""
  ∧ get_tasks (H := toy_libraries) env0 (Some pending) None cached_state
    = get_tasks (H := toy_libraries) env0 None (Some high) cached_state.
Proof.
  split; [vm_compute; reflexivity|]. split; [discriminate|].
  apply (cached_listing_ignores_filters (H := toy_libraries)
           env0 cached_state "[]"); [vm_compute; reflexivity|discriminate].
Defined.

Lemma create_task_keeps_cache_witness :
  truthy (Redis.get (utcnow env0) "tasks" (redis_client cached_state)) = true
  ∧ (get_tasks (H := toy_libraries) env0 None None
       (create_task (H := toy_libraries) env0 buy_milk cached_state).2).1
    = (get_tasks (H := toy_libraries) env0 None None cached_state).1.
Proof.
  split; [vm_compute; reflexivity|].
  apply (create_task_keeps_cache (H := toy_libraries) env0 buy_milk cached_state).
  vm_compute; reflexivity.
Defined.

Lemma listing_on_cache_miss_witness :
  truthy (Redis.get (utcnow env0) "tasks" (redis_client mixed_state)) = false
  ∧ (get_tasks (H := toy_libraries) env0 None (Some low) mixed_state).1
    = Return [ {| j_id := "0000000000000000000000ff";
                  j_title := "Buy milk";
                  j_description := None;
                  j_status := "pending";
                  j_priority := "low";
                  j_created_at := "epochT000003e8" |};
               {| j_id := "t1";
                  j_title := "Buy milk";
                  j_description := None;
                  j_status := "pending";
                  j_priority := "low";
                  j_created_at := "epochT00000000" |} ]
  ∧ Redis.get 1059 "tasks"
      (redis_client
         (get_tasks (H := toy_libraries) env0 None (Some low) mixed_state).2)
    = Some ("[0000000000000000000000ff|Buy milk|~|pending|low|epochT000003e8;"
            ++ "t1|Buy milk|~|pending|low|epochT00000000]").
Proof.
  assert (Hmiss : truthy (Redis.get (utcnow env0) "tasks"
                            (redis_client mixed_state)) = false)
    by (vm_compute; reflexivity).
  destruct (listing_on_cache_miss (H := toy_libraries) env0 None (Some low)
              mixed_state Hmiss) as (Hr & _ & _ & _ & _ & Hlive & _).
  split; [exact Hmiss|]. split.
  - rewrite Hr. vm_compute. reflexivity.
  - rewrite (Hlive 1059) by reflexivity. vm_compute. reflexivity.
Defined.

(** ** Update and delete *)

Section Mutation.

Lemma update_one_zero `{Document D} `{EqDecision D}
    (q : gmap string bson) (u : D → D) (c c' : list D) :
  Mongo.update_one q u c = (c', 0%nat) → c' = c.
Proof.
  revert c'. induction c as [|d c IH]; intros c'; cbn.
  - congruence.
  - destruct (Mongo.matches q d).
    + destruct (decide (u d = d)) as [E|]; [|discriminate].
      intros [= <-]. rewrite E. reflexivity.
    + destruct (Mongo.update_one q u c) as [c'' n].
      intros [= <- ->]. rewrite (IH c'' eq_refl). reflexivity.
Qed.

Lemma delete_one_zero `{Document D} (q : gmap string bson) (c c' : list D) :
  Mongo.delete_one q c = (c', 0%nat) → c' = c.
Proof.
  revert c'. induction c as [|d c IH]; intros c'; cbn.
  - congruence.
  - destruct (Mongo.matches q d); [discriminate|].
    destruct (Mongo.delete_one q c) as [c'' n].
    intros [= <- ->]. rewrite (IH c'' eq_refl). reflexivity.
Qed.

(** [modified_count] is 0 when no document matches the filter, and also
    when the first one that matches already has the new fields. *)
Lemma update_one_count `{Document D} `{EqDecision D}
    (q : gmap string bson) (u : D → D) (c : list D) :
  (Mongo.update_one q u c).2 = 0%nat
  ↔ match Mongo.find_one q c with Some d => u d = d | None => True end.
Proof.
  unfold Mongo.find_one. induction c as [|d c IH].
  - cbn. tauto.
  - rewrite filter_cons. cbn [Mongo.update_one].
    destruct (Mongo.matches q d) eqn:E.
    + cbn. destruct (decide (u d = d)); cbn; split; intros; try assumption;
        try reflexivity; try discriminate; contradiction.
    + cbn. destruct (Mongo.update_one q u c) as [c'' n]. exact IH.
Qed.

(** The two outcomes of [update_task]. *)
Lemma update_task_cases (task_id : string) (task : TaskSchema) (s : state) :
  update_task task_id task s = (HTTPException 404 "Task not found", s)
  ∨ ∃ c, update_task task_id task s
         = (Return [("message", JStr "Task updated")],
            {| db_users := db_users s; db_tasks := c;
               redis_client := Redis.delete "tasks" (redis_client s) |}).
Proof.
  unfold_handler.
  destruct (Mongo.update_one _ _ _) as [c n] eqn:E.
  destruct n as [|n]; cbn.
  - left. rewrite (update_one_zero _ _ _ _ E), state_eta. reflexivity.
  - right. exists c. reflexivity.
Qed.

(** The two outcomes of [delete_task]. *)
Lemma delete_task_cases (task_id : string) (s : state) :
  delete_task task_id s = (HTTPException 404 "Task not found", s)
  ∨ ∃ c, delete_task task_id s
         = (Return [("message", JStr "Task deleted")],
            {| db_users := db_users s; db_tasks := c;
               redis_client := Redis.delete "tasks" (redis_client s) |}).
Proof.
  unfold_handler.
  destruct (Mongo.delete_one _ _) as [c n] eqn:E.
  destruct n as [|n]; cbn.
  - left. rewrite (delete_one_zero _ _ _ E), state_eta. reflexivity.
  - right. exists c. reflexivity.
Qed.

Lemma get_after_delete (now : Z) (k : string)
    (r : gmap string (string * option Z)) :
  Redis.get now k (Redis.delete k r) = None.
Proof. unfold Redis.get, Redis.delete. rewrite lookup_delete_eq. reflexivity. Qed.

(** C4. [update_task] and [delete_task] delete the cache entry when they
    succeed; when they fail, it is with 404 and the cache is as before. In
    particular an update of an identifier that no stored task has is a 404
    and changes nothing. *)
Theorem mutation_invalidates_cache (task_id : string) (task : TaskSchema)
    (s : state) :
  invalidates_on_success (update_task task_id task s) s
  ∧ invalidates_on_success (delete_task task_id s) s
  ∧ (Forall (λ d, t_id d ≠ BStr task_id) (db_tasks s) →
     update_task task_id task s = (HTTPException 404 "Task not found", s)).
Proof.
  split; [|split].
  - destruct (update_task_cases task_id task s) as [-> | [c ->]]; cbn.
    + auto.
    + split; [reflexivity|]. intros now. apply get_after_delete.
  - destruct (delete_task_cases task_id s) as [-> | [c ->]]; cbn.
    + auto.
    + split; [reflexivity|]. intros now. apply get_after_delete.
  - intros Hno. unfold_handler.
    rewrite update_one_no_match; [cbn; rewrite state_eta; reflexivity|].
    eapply Forall_impl; [exact Hno|]. intros d Hd.
    rewrite matches_id. apply bool_decide_eq_false_2, Hd.
Qed.

End Mutation.

Lemma mutation_invalidates_cache_witness :
  Forall (λ d, t_id d ≠ BStr "t2") (db_tasks cached_state)
  ∧ update_task "t2" milk_bought cached_state
    = (HTTPException 404 "Task not found", cached_state).
Proof.
  split; [repeat constructor; discriminate|].
  apply (mutation_invalidates_cache "t2" milk_bought cached_state).
  repeat constructor; discriminate.
Defined.

(** ** What the cache holds

    [get_tasks] takes the cached string for a listing when it is not empty.
    The application only ever stores [json.dumps] of a list under the key,
    and that is never the empty string: so on the states the application
    reaches, an entry that [redis_client.get] returns is an entry that
    [get_tasks] serves. *)

Section CacheContents.

Context `{Libraries}.

Hypothesis json_dumps_not_empty : ∀ l, json_dumps l ≠ "".

Lemma app_cache_truthy (e : env) (r : route) (request : Request) (s : state) :
  cache_truthy s → cache_truthy (app e r request s).2.
Proof.
  intros Hs. destruct r.
  - unfold_handler. destruct (pwd_context_hash _ _); [|exact Hs].
    destruct (Mongo.find_one _ _); exact Hs.
  - unfold_handler. destruct (Mongo.find_one _ _); [|exact Hs].
    destruct (pwd_verify _ _); exact Hs.
  - exact Hs.
  - exact Hs.
  - unfold_handler. destruct (truthy _).
    + destruct (json_loads _); exact Hs.
    + intros v t. cbn. unfold Redis.setex. rewrite lookup_insert_eq.
      intros [= <- _]. apply json_dumps_not_empty.
  - unfold app. unfold bind at 1.
    destruct (update_task_cases task_id task s) as [-> | [c ->]];
      [exact Hs|].
    intros v t. cbn. unfold Redis.delete. rewrite lookup_delete_eq.
    discriminate.
  - unfold app. unfold bind at 1.
    destruct (delete_task_cases task_id s) as [-> | [c ->]]; [exact Hs|].
    intros v t. cbn. unfold Redis.delete. rewrite lookup_delete_eq.
    discriminate.
  - unfold_handler. destruct (get_current_user _ _); [|exact Hs..].
    destruct (Mongo.find_one _ _); exact Hs.
  - exact Hs.
Qed.

Lemma serve_cache_truthy (l : list (env * route * Request)) (s : state) :
  cache_truthy s → cache_truthy (serve l s).
Proof.
  revert s. induction l as [|[[e r] request] l IH]; intros s Hs; cbn.
  - exact Hs.
  - apply IH, app_cache_truthy, Hs.
Qed.

(** After any requests, an entry that [redis_client.get] returns is served
    as it is, whatever the filters. *)
Lemma served_entry_ignores_filters (l : list (env * route * Request))
    (s0 : state) (e : env) (v : string) :
  cache_truthy s0 →
  Redis.get (utcnow e) "tasks" (redis_client (serve l s0)) = Some v →
  ∀ st pr, get_tasks e st pr (serve l s0) = (decoded v, serve l s0).
Proof.
  intros Hs Hget st pr.
  assert (Hv : v ≠ "").
  { unfold Redis.get in Hget.
    destruct (redis_client (serve l s0) !! "tasks") as [[v' t]|] eqn:E;
      [|discriminate].
    destruct (Redis.live _ _); [|discriminate].
    injection Hget as <-. exact (serve_cache_truthy l s0 Hs v' t E). }
  rewrite get_tasks_hit; rewrite Hget; [reflexivity|].
  cbn. apply negb_true_iff, String.eqb_neq, Hv.
Qed.

End CacheContents.

(** [update_task] answers 404 exactly when [modified_count] is 0. *)
Lemma update_task_not_found_iff (task_id : string) (task : TaskSchema)
    (s : state) :
  (update_task task_id task s).1 = HTTPException 404 "Task not found"
  ↔ match Mongo.find_one {[ "_id" := BStr task_id ]} (db_tasks s) with
    | Some d => set_fields task d = d
    | None => True
    end.
Proof.
  rewrite <- update_one_count. unfold_handler.
  destruct (Mongo.update_one _ _ _) as [c n]. destruct n; cbn.
  - tauto.
  - split; discriminate.
Qed.

(** C3, on two inputs where a stored task has the identifier and
    [update_task] answers 404 all the same. First, the task the application
    itself created, addressed by the identifier [create_task] returned: the
    string is compared with an ObjectId. Second, a task keyed by the very
    string of the path, updated with the fields it already has:
    [modified_count] is 0 although the filter matched. With other fields the
    same update succeeds. *)
Theorem update_answers_not_found_for_stored_task `{Libraries} :
  let r := create_task env0 buy_milk empty_state in
  r.1 = Return [("message", JStr "Task created");
                ("task_id", JStr "0000000000000000000000ff")]
  ∧ db_tasks r.2 = [created_doc env0 buy_milk]
  ∧ update_task "0000000000000000000000ff" milk_bought r.2
    = (HTTPException 404 "Task not found", r.2)
  ∧ Mongo.find_one {[ "_id" := BStr "t1" ]} (db_tasks string_keyed_state)
    = Some string_keyed_task
  ∧ update_task "t1" buy_milk string_keyed_state
    = (HTTPException 404 "Task not found", string_keyed_state)
  ∧ (update_task "t1" milk_bought string_keyed_state).1
    = Return [("message", JStr "Task updated")].
Proof.
  cbv zeta. split; [reflexivity|]. split; [reflexivity|].
  split; [|split; [|split]]; vm_compute; reflexivity.
Qed.

(** ** Sessions *)

Section Sessions.

Context `{Libraries}.

Lemma jwt_decode_signed (now : Z) (payload : claims) :
  jwt_decode now (jwt_encode payload SECRET_KEY ALGORITHM) SECRET_KEY [ALGORITHM]
  = match validate_claims now payload with
    | Some error => inl error
    | None => inr payload
    end.
Proof.
  unfold jwt_decode, jwt_encode.
  rewrite bool_decide_eq_true_2 by (apply list_elem_of_here).
  rewrite String.eqb_refl. reflexivity.
Qed.



End Sessions.


(** ** Accounts *)

Section Accounts.

Context `{Libraries}.

Lemma find_one_username_None (u : string) (c : list user_doc) :
  Mongo.find_one {[ "username" := BStr u ]} c = None
  ↔ ¬ ∃ d, d ∈ c ∧ u_username d = u.
Proof.
  unfold Mongo.find_one. induction c as [|d c IH].
  - cbn. split; [|reflexivity]. intros _ (d & Hd & _). inversion Hd.
  - rewrite filter_cons, matches_username.
    destruct (decide (u_username d = u)) as [E|E].
    + rewrite bool_decide_eq_true_2 by exact E. cbn. split; [discriminate|].
      intros Hn. exfalso. apply Hn. exists d. split; [left|exact E].
    + rewrite bool_decide_eq_false_2 by exact E. cbn. rewrite IH.
      split; intros Hn (d' & Hd' & E').
      * apply elem_of_cons in Hd' as [-> | Hd']; [contradiction|].
        apply Hn. exists d'. split; assumption.
      * apply Hn. exists d'. split; [right; assumption|assumption].
Qed.

(** A document found stays the one found when documents are appended. *)
Lemma find_one_app `{Document D} (q : gmap string bson) (c extra : list D)
    (d : D) :
  Mongo.find_one q c = Some d → Mongo.find_one q (c ++ extra)%list = Some d.
Proof.
  unfold Mongo.find_one. rewrite filter_app.
  destruct (filter _ c); [discriminate|]. cbn. auto.
Qed.

Lemma find_one_new (u : string) (c : list user_doc) (d : user_doc) :
  Mongo.find_one {[ "username" := BStr u ]} c = None →
  u_username d = u →
  Mongo.find_one {[ "username" := BStr u ]} (c ++ [d])%list = Some d.
Proof.
  unfold Mongo.find_one. intros Hc Hd. rewrite filter_app.
  apply head_None in Hc. rewrite Hc, app_nil_l.
  rewrite filter_cons, matches_username, bool_decide_eq_true_2 by exact Hd.
  reflexivity.
Qed.

Lemma username_exists_dec (u : string) (s : state) :
  username_exists u s ∨ ¬ username_exists u s.
Proof.
  unfold username_exists.
  destruct (decide (Exists (λ d, u_username d = u) (db_users s))) as [E|E];
    rewrite Exists_exists in E; [left|right]; exact E.
Qed.

Lemma register_refused (e : env) (user : User) (response : Response)
    (s : state) :
  pwd_context_hash (new_salt e) (password user) = None →
  register e user response s = (Uncaught "ValueError", s).
Proof. intros Hh. unfold register. rewrite Hh. reflexivity. Qed.

Lemma register_conflict (e : env) (user : User) (response : Response)
    (s : state) (hash : string) :
  pwd_context_hash (new_salt e) (password user) = Some hash →
  username_exists (username user) s →
  register e user response s
  = (HTTPException 400 "Username already exists", s).
Proof.
  intros Hh Hex. unfold register. rewrite Hh. unfold_handler. cbn [username].
  destruct (Mongo.find_one _ _) eqn:E; [reflexivity|].
  apply find_one_username_None in E. contradiction.
Qed.

Lemma register_fresh (e : env) (user : User) (response : Response)
    (s : state) (hash : string) :
  pwd_context_hash (new_salt e) (password user) = Some hash →
  ¬ username_exists (username user) s →
  register e user response s
  = (Return (session_response "User registered successfully"
               (create_jwt_token (utcnow e) (username user)) response),
     registered e user hash s).
Proof.
  intros Hh Hex. unfold register. rewrite Hh. unfold_handler. cbn [username].
  apply find_one_username_None in Hex. rewrite Hex. reflexivity.
Qed.

Lemma contains_NUL_refused (salt secret : string) :
  contains_NUL secret = true → pwd_context_hash salt secret = None.
Proof. intros Hn. unfold pwd_context_hash. rewrite Hn. reflexivity. Qed.

(** C8, as amended. For a password that [pwd_context.hash] accepts,
    [register] raises 400 "Username already exists" exactly when a stored
    user has the username. Otherwise it stores the user and answers 201 with
    a new token; and a second registration of the same username, with any
    password the hasher accepts, is then a 400. For a password that
    [pwd_context.hash] refuses ([register] hashes before it looks the
    username up), as it refuses one with a NUL byte, [register] raises,
    stored username or not, and stores nothing. *)
Theorem register_conflict_iff (e : env) (user : User) (response : Response)
    (s : state) :
  (∀ hash,
     pwd_context_hash (new_salt e) (password user) = Some hash →
     ((register e user response s).1
        = HTTPException 400 "Username already exists"
      ↔ username_exists (username user) s)
     ∧ (username_exists (username user) s →
        register e user response s
        = (HTTPException 400 "Username already exists", s))
     ∧ (¬ username_exists (username user) s →
        (∃ response',
           register e user response s
           = (Return ({| body := [("message",
                                   JStr "User registered successfully");
                                  ("access_token",
                                   JToken (create_jwt_token (utcnow e)
                                             (username user)))];
                         status_code := 201 |}, response'),
              registered e user hash s))
        ∧ ∀ e' pw' response' hash',
            pwd_context_hash (new_salt e') pw' = Some hash' →
            register e' {| username := username user; password := pw' |}
              response' (registered e user hash s)
            = (HTTPException 400 "Username already exists",
               registered e user hash s)))
  ∧ (pwd_context_hash (new_salt e) (password user) = None →
     register e user response s = (Uncaught "ValueError", s))
  ∧ (contains_NUL (password user) = true →
     pwd_context_hash (new_salt e) (password user) = None).
Proof.
  split; [|split; [apply register_refused|apply contains_NUL_refused]].
  intros hash Hh. split; [|split].
  - split.
    + intros Hr. destruct (username_exists_dec (username user) s)
        as [Hex|Hex]; [exact Hex|].
      rewrite (register_fresh e user response s hash Hh Hex) in Hr.
      discriminate.
    + intros Hex. rewrite (register_conflict e user response s hash Hh Hex).
      reflexivity.
  - apply (register_conflict e user response s hash Hh).
  - intros Hex. split.
    + eexists. apply (register_fresh e user response s hash Hh Hex).
    + intros e' pw' response' hash' Hh'.
      apply (register_conflict e' {| username := username user;
                                     password := pw' |} response' _ hash' Hh').
      cbn [username].
      exists (registered_doc e user hash). split; [|reflexivity].
      cbn. apply elem_of_app. right. apply list_elem_of_singleton.
      reflexivity.
Qed.

(** Requests only ever append users. *)
Lemma app_users_grow (e : env) (r : route) (request : Request) (s : state) :
  ∃ extra, db_users (app e r request s).2 = (db_users s ++ extra)%list.
Proof.
  destruct r; unfold_handler.
  - destruct (pwd_context_hash _ _) as [hash|];
      [|exists []; rewrite app_nil_r; reflexivity].
    destruct (Mongo.find_one _ _).
    + exists []. rewrite app_nil_r. reflexivity.
    + exists [registered_doc e user hash]. reflexivity.
  - exists []. rewrite app_nil_r. destruct (Mongo.find_one _ _); [|reflexivity].
    destruct (pwd_verify _ _); reflexivity.
  - exists []. rewrite app_nil_r. reflexivity.
  - exists []. rewrite app_nil_r. reflexivity.
  - exists []. rewrite app_nil_r. destruct (truthy _); [|reflexivity].
    destruct (json_loads _); reflexivity.
  - exists []. rewrite app_nil_r.
    destruct (Mongo.update_one _ _ _) as [c [|n]]; reflexivity.
  - exists []. rewrite app_nil_r.
    destruct (Mongo.delete_one _ _) as [c [|n]]; reflexivity.
  - exists []. rewrite app_nil_r.
    destruct (get_current_user _ _); [|reflexivity..].
    destruct (Mongo.find_one _ _); reflexivity.
  - exists []. rewrite app_nil_r. reflexivity.
Qed.

Lemma serve_users_grow (l : list (env * route * Request)) (s : state) :
  ∃ extra, db_users (serve l s) = (db_users s ++ extra)%list.
Proof.
  revert s. induction l as [|[[e r] request] l IH]; intros s; cbn.
  - exists []. rewrite app_nil_r. reflexivity.
  - destruct (app_users_grow e r request s) as (x1 & E1).
    destruct (IH (app e r request s).2) as (x2 & E2).
    exists (x1 ++ x2)%list. rewrite E2, E1, <- app_assoc. reflexivity.
Qed.

Lemma login_found (e : env) (user : User) (response : Response) (s : state)
    (d : user_doc) :
  Mongo.find_one {[ "username" := BStr (username user) ]} (db_users s) = Some d →
  login e user response s
  = if pwd_verify (password user) (u_password d)
    then (Return (session_response "User logged in successfully"
                    (create_jwt_token (utcnow e) (username user)) response), s)
    else (HTTPException 401 "Invalid credentials", s).
Proof.
  intros Hd. unfold_handler. rewrite Hd.
  destruct (pwd_verify _ _); reflexivity.
Qed.

(** C9. When [register] succeeds, the hasher has accepted the password, and
    the users are the users there were and one more, whose "password" is the
    hash [pwd_context.hash] made of the password: the password itself is put
    nowhere. From then on, after any further requests, [login] with that
    username succeeds (201, a new token, the cookie set on its [response])
    exactly when [pwd_context.verify] accepts the supplied password against
    that stored hash, and is a 401 "Invalid credentials" otherwise. *)
Theorem password_is_stored_hashed (e : env) (user : User)
    (response : Response) (s : state) (answer : JSONResponse * Response)
    (later : list (env * route * Request)) :
  (register e user response s).1 = Return answer →
  let s1 := (register e user response s).2 in
  ∃ hash,
    pwd_hash (new_salt e) (password user) = Some hash
    ∧ db_users s1
      = (db_users s ++ [{| u_id := BObjectId (new_oid e);
                           u_username := username user;
                           u_password := hash |}])%list
    ∧ db_tasks s1 = db_tasks s
    ∧ redis_client s1 = redis_client s
    ∧ ∀ e' pw response',
        let s2 := serve later s1 in
        let attempt := {| username := username user; password := pw |} in
        (pwd_verify pw hash = true →
         login e' attempt response' s2
         = (Return (session_response "User logged in successfully"
                      (create_jwt_token (utcnow e') (username user))
                      response'),
            s2))
        ∧ (pwd_verify pw hash = false →
           login e' attempt response' s2
           = (HTTPException 401 "Invalid credentials", s2)).
Proof.
  intros Hok.
  destruct (pwd_context_hash (new_salt e) (password user)) as [hash|] eqn:Hh.
  2:{ rewrite (register_refused e user response s Hh) in Hok. discriminate. }
  assert (Hfresh : ¬ username_exists (username user) s).
  { intros Hex. rewrite (register_conflict e user response s hash Hh Hex) in Hok.
    discriminate. }
  rewrite (register_fresh e user response s hash Hh Hfresh). cbn zeta.
  cbn [snd]. exists hash. split.
  { unfold pwd_context_hash in Hh.
    destruct (contains_NUL (password user)); [discriminate|exact Hh]. }
  split; [reflexivity|]. split; [reflexivity|]. split; [reflexivity|].
  intros e' pw response'.
  destruct (serve_users_grow later (registered e user hash s)) as (extra & E).
  assert (Hfind : Mongo.find_one {[ "username" := BStr (username user) ]}
                    (db_users (serve later (registered e user hash s)))
                  = Some (registered_doc e user hash)).
  { rewrite E. apply find_one_app. cbn [db_users registered].
    apply find_one_new; [|reflexivity].
    apply find_one_username_None, Hfresh. }
  split; intros Hv.
  - rewrite (login_found e' {| username := username user; password := pw |}
               response' _ _ Hfind).
    cbn [password u_password registered_doc]. rewrite Hv. reflexivity.
  - rewrite (login_found e' {| username := username user; password := pw |}
               response' _ _ Hfind).
    cbn [password u_password registered_doc]. rewrite Hv. reflexivity.
Qed.

End Accounts.

Lemma register_conflict_iff_witness :
  pwd_context_hash (H := toy_libraries) (new_salt env0) (password alice)
  = Some "$toy$wonderland"
  ∧ ¬ username_exists (username alice) empty_state
  ∧ register (H := toy_libraries) env0 alice []
      (registered env0 alice "$toy$wonderland" empty_state)
    = (HTTPException 400 "Username already exists",
       registered env0 alice "$toy$wonderland" empty_state).
Proof.
  assert (Hh : pwd_context_hash (H := toy_libraries) (new_salt env0)
                 (password alice) = Some "$toy$wonderland") by reflexivity.
  assert (Hfresh : ¬ username_exists (username alice) empty_state).
  { intros (d & Hd & _). inversion Hd. }
  split; [exact Hh|]. split; [exact Hfresh|].
  exact (proj2 (proj2 (proj2 (proj1 (register_conflict_iff (H := toy_libraries)
           env0 alice [] empty_state) "$toy$wonderland" Hh)) Hfresh)
           env0 "wonderland" [] "$toy$wonderland" Hh).
Defined.

(** C8, as it was claimed, fails: the username is stored, the password has a
    NUL byte, and [register] raises instead of answering 400. *)
Lemma register_raises_for_stored_username :
  username_exists (username nul_alice) alice_state
  ∧ register (H := toy_libraries) env0 nul_alice [] alice_state
    = (Uncaught "ValueError", alice_state)
  ∧ ¬ ((register (H := toy_libraries) env0 nul_alice [] alice_state).1
         = HTTPException 400 "Username already exists"
       ↔ username_exists (username nul_alice) alice_state).
Proof.
  assert (Hex : username_exists (username nul_alice) alice_state).
  { eexists. split; [apply list_elem_of_singleton; reflexivity|reflexivity]. }
  assert (Hr : register (H := toy_libraries) env0 nul_alice [] alice_state
               = (Uncaught "ValueError", alice_state)) by reflexivity.
  split; [exact Hex|]. split; [exact Hr|].
  intros [_ Hiff]. specialize (Hiff Hex). rewrite Hr in Hiff.
  cbn [fst] in Hiff. discriminate Hiff.
Qed.

Lemma password_is_stored_hashed_witness :
  (register (H := toy_libraries) env0 alice [] empty_state).1
  = Return (session_response "User registered successfully"
              (create_jwt_token (H := toy_libraries) 1000 "alice") [])
  ∧ u_password <$> db_users
      (register (H := toy_libraries) env0 alice [] empty_state).2
    = ["$toy$wonderland"].
Proof.
  split; [reflexivity|].
  destruct (password_is_stored_hashed (H := toy_libraries)
              env0 alice [] empty_state _ [] eq_refl)
    as (hash & Hhash & Husers & _).
  rewrite Husers. cbn in Hhash. injection Hhash as <-. reflexivity.
Defined.

(** ** Who authenticates *)

Section Authentication.

Context `{Libraries}.

Lemma app_PUT_tasks (e : env) (task_id : string) (task : TaskSchema)
    (request : Request) (s : state) :
  app e (PUT_tasks task_id task) request s
  = match update_task task_id task s with
    | (Return c, s') => (Return (Dict c, []), s')
    | (HTTPException code detail, s') => (HTTPException code detail, s')
    | (Uncaught exn, s') => (Uncaught exn, s')
    end.
Proof. reflexivity. Qed.

Lemma app_DELETE_tasks (e : env) (task_id : string) (request : Request)
    (s : state) :
  app e (DELETE_tasks task_id) request s
  = match delete_task task_id s with
    | (Return c, s') => (Return (Dict c, []), s')
    | (HTTPException code detail, s') => (HTTPException code detail, s')
    | (Uncaught exn, s') => (Uncaught exn, s')
    end.
Proof. reflexivity. Qed.

(** C10. The four task routes give the same answer and the same state for
    any two requests that differ in their cookies, and never answer 401.
    The same independence holds for every route but GET /user, whose
    handler is run on the result of [get_current_user]: without a cookie
    it answers 401 "Not authenticated". *)
Theorem only_get_user_authenticates (e : env) (r : route)
    (request request' : Request) (s : state) :
  (task_route r = true → app e r request s = app e r request' s)
  ∧ (task_route r = true →
     ∀ detail, (app e r request s).1 ≠ HTTPException 401 detail)
  ∧ (r ≠ GET_user → app e r request s = app e r request' s)
  ∧ (cookies request !! "access_token" = None →
     app e GET_user request s
     = (HTTPException 401 "Not authenticated", s))
  ∧ (∀ username, get_current_user (utcnow e) request = Return username →
     app e GET_user request s
     = match get_user username s with
       | (Return c, s') => (Return (Dict c, []), s')
       | (HTTPException code detail, s') => (HTTPException code detail, s')
       | (Uncaught exn, s') => (Uncaught exn, s')
       end).
Proof.
  split; [|split; [|split; [|split]]].
  - destruct r; try discriminate; reflexivity.
  - destruct r; try discriminate; intros _ detail.
    + unfold_handler. destruct (truthy _).
      * destruct (json_loads _); intros E; cbn in E; discriminate E.
      * intros E; cbn in E; discriminate E.
    + rewrite app_PUT_tasks.
      destruct (update_task_cases task_id task s) as [-> | [c ->]];
        intros E; cbn in E; discriminate E.
    + rewrite app_DELETE_tasks.
      destruct (delete_task_cases task_id s) as [-> | [c ->]];
        intros E; cbn in E; discriminate E.
  - destruct r; try reflexivity. contradiction.
  - intros Hc. unfold app, bind, lift, get_current_user. rewrite Hc.
    reflexivity.
  - intros username Hu. unfold app. unfold bind at 1. unfold lift.
    rewrite Hu. reflexivity.
Qed.

End Authentication.

Lemma only_get_user_authenticates_witness :
  task_route (PUT_tasks "t1" milk_bought) = true
  ∧ app (H := toy_libraries) env0 (PUT_tasks "t1" milk_bought) no_cookie
      string_keyed_state
    = app (H := toy_libraries) env0 (PUT_tasks "t1" milk_bought)
        {| cookies := {[ "access_token" := Opaque "forged" ]} |}
        string_keyed_state.
Proof.
  split; [reflexivity|].
  apply (proj1 (only_get_user_authenticates (H := toy_libraries)
                  env0 (PUT_tasks "t1" milk_bought) no_cookie _
                  string_keyed_state)).
  reflexivity.
Defined.

(** ** A run

    On an empty store, a listing, then the creation of a task, then a second
    listing. Within the 60 seconds of the cache entry the second listing is
    the first one, without the new task; after them it has the task. *)

Example stale_listing_within_60_seconds :
  answers (H := toy_libraries) (list_create_list 1059) empty_state
  = [ Return (Listing [], []);
      Return (Dict [("message", JStr "Task created");
                    ("task_id", JStr "0000000000000000000000ff")], []);
      Return (Listing [], []) ].
Proof. vm_compute. reflexivity. Qed.

Example fresh_listing_after_60_seconds :
  answers (H := toy_libraries) (list_create_list 1060) empty_state
  = [ Return (Listing [], []);
      Return (Dict [("message", JStr "Task created");
                    ("task_id", JStr "0000000000000000000000ff")], []);
      Return (Listing [ {| j_id := "0000000000000000000000ff";
                           j_title := "Buy milk";
                           j_description := None;
                           j_status := "pending";
                           j_priority := "low";
                           j_created_at := "epochT000003f2" |} ], []) ].
Proof. vm_compute. reflexivity. Qed.

(** * Beyond the claims *)

(** ** Who is accepted by [get_current_user] *)

Section Acceptance.

Context `{Libraries}.

(** What [get_current_user] answers to a cookie that is signed with the key
    of the application. *)
Lemma get_current_user_signed (now : Z) (request : Request) (payload : claims) :
  cookies request !! "access_token" = Some (signed payload) →
  get_current_user now request
  = match validate_claims now payload with
    | Some ExpiredSignatureError => HTTPException 401 "Token expired"
    | Some _ => HTTPException 401 "Invalid token"
    | None => match sub payload with
              | Some u => Return u
              | None => HTTPException 401 "Invalid token"
              end
    end.
Proof.
  intros Hc. unfold get_current_user. rewrite Hc. unfold signed.
  cbn [token_truthy negb].
  change (JWS ALGORITHM payload (jws_sign ALGORITHM SECRET_KEY payload))
    with (jwt_encode payload SECRET_KEY ALGORITHM).
  rewrite jwt_decode_signed.
  destruct (validate_claims now payload) as [[]|]; reflexivity.
Qed.





(** The claims pass the validation exactly when no date is wrong and no
    audience is named. *)
Lemma validate_claims_None (now : Z) (payload : claims) :
  validate_claims now payload = None
  ↔ in_future now (iat payload) = false
    ∧ in_future now (nbf payload) = false
    ∧ has_expired now (exp payload) = false
    ∧ names_audience (aud payload) = false.
Proof.
  unfold validate_claims.
  destruct (in_future now (iat payload)), (in_future now (nbf payload)),
    (has_expired now (exp payload)), (names_audience (aud payload));
    split; try discriminate; try tauto; intros (? & ? & ? & ?); discriminate.
Qed.




End Acceptance.



(** ** Logging in and being served *)

Section Login.

Context `{Libraries}.

Lemma find_one_Some `{Document D} (q : gmap string bson) (c : list D) (d : D) :
  Mongo.find_one q c = Some d → d ∈ c ∧ Mongo.matches q d = true.
Proof.
  unfold Mongo.find_one. intros Hd.
  apply head_Some_elem_of, list_elem_of_filter in Hd as [Hm Hin].
  split; [exact Hin|]. apply Is_true_true, Hm.
Qed.

Lemma find_one_username_exists (u : string) (s : state) :
  username_exists u s
  ↔ ∃ d, Mongo.find_one {[ "username" := BStr u ]} (db_users s) = Some d.
Proof.
  split.
  - intros Hex.
    destruct (Mongo.find_one {[ "username" := BStr u ]} (db_users s)) as [d|]
      eqn:E; [exists d; reflexivity|].
    apply find_one_username_None in E. contradiction.
  - intros [d Hd]. apply find_one_Some in Hd as [Hin Hm].
    rewrite matches_username in Hm. apply bool_decide_eq_true_1 in Hm.
    exists d. split; assumption.
Qed.

Lemma login_unknown (e : env) (user : User) (response : Response) (s : state) :
  Mongo.find_one {[ "username" := BStr (username user) ]} (db_users s) = None →
  login e user response s = (HTTPException 401 "Invalid credentials", s).
Proof. intros Hn. unfold_handler. rewrite Hn. reflexivity. Qed.

(** X3. [login] never changes the store or the cache. It answers 401
    "Invalid credentials" when no stored user has the username, and the same
    when the password does not verify against the hash of the first stored
    user with that name; when it verifies, it answers 201 with a token for
    the username, which it also sets as the cookie on its [response]. It
    succeeds only for a stored username. *)
Theorem login_outcome (e : env) (user : User) (response : Response)
    (s : state) :
  (login e user response s).2 = s
  ∧ (¬ username_exists (username user) s →
     (login e user response s).1 = HTTPException 401 "Invalid credentials")
  ∧ (∀ d, Mongo.find_one {[ "username" := BStr (username user) ]} (db_users s)
          = Some d →
          (pwd_verify (password user) (u_password d) = false →
           (login e user response s).1
           = HTTPException 401 "Invalid credentials")
          ∧ (pwd_verify (password user) (u_password d) = true →
             (login e user response s).1
             = Return (session_response "User logged in successfully"
                         (create_jwt_token (utcnow e) (username user))
                         response)))
  ∧ (∀ answer, (login e user response s).1 = Return answer →
               username_exists (username user) s).
Proof.
  destruct (Mongo.find_one {[ "username" := BStr (username user) ]} (db_users s))
    as [d|] eqn:E.
  - rewrite (login_found e user response s d E).
    split; [destruct (pwd_verify _ _); reflexivity|].
    split.
    { intros Hn. destruct Hn. apply find_one_username_exists. eauto. }
    split.
    { intros d' [= <-]. split; intros ->; reflexivity. }
    intros answer _. apply find_one_username_exists. eauto.
  - rewrite (login_unknown e user response s E).
    split; [reflexivity|]. split; [reflexivity|].
    split; [discriminate|]. discriminate.
Qed.

Lemma get_user_found (u : string) (s : state) :
  username_exists u s → get_user u s = (Return (greeting u), s).
Proof.
  intros Hex. apply find_one_username_exists in Hex as [d Hd].
  unfold_handler. rewrite Hd. reflexivity.
Qed.

Lemma get_user_missing (u : string) (s : state) :
  ¬ username_exists u s →
  get_user u s = (Return [("message", JStr "User not found")], s).
Proof.
  intros Hex. apply find_one_username_None in Hex.
  unfold_handler. rewrite Hex. reflexivity.
Qed.

Lemma app_GET_user (e : env) (request : Request) (s : state) (u : string) :
  get_current_user (utcnow e) request = Return u →
  app e GET_user request s
  = match get_user u s with
    | (Return c, s') => (Return (Dict c, []), s')
    | (HTTPException code detail, s') => (HTTPException code detail, s')
    | (Uncaught exn, s') => (Uncaught exn, s')
    end.
Proof.
  intros Hu. unfold app. unfold bind at 1. unfold lift. rewrite Hu.
  reflexivity.
Qed.

(** X4. GET /user never changes the state, and once the cookie is accepted
    it does not fail: it greets the user when the username of the token is
    stored, and answers "User not found", with success, when it is not. *)
Theorem get_user_outcome (e : env) (request : Request) (s : state)
    (u : string) :
  (app e GET_user request s).2 = s
  ∧ (get_current_user (utcnow e) request = Return u →
     (username_exists u s →
      (app e GET_user request s).1 = Return (Dict (greeting u), []))
     ∧ (¬ username_exists u s →
        (app e GET_user request s).1
        = Return (Dict [("message", JStr "User not found")], []))).
Proof.
  split.
  - unfold app. unfold bind at 1. unfold lift.
    destruct (get_current_user (utcnow e) request) as [u'| |]; try reflexivity.
    destruct (username_exists_dec u' s) as [Hex|Hex].
    + unfold bind. rewrite (get_user_found u' s Hex). reflexivity.
    + unfold bind. rewrite (get_user_missing u' s Hex). reflexivity.
  - intros Hu. rewrite (app_GET_user e request s u Hu). split; intros Hex.
    + rewrite (get_user_found u s Hex). reflexivity.
    + rewrite (get_user_missing u s Hex). reflexivity.
Qed.

Lemma username_exists_serve (l : list (env * route * Request)) (s : state)
    (u : string) :
  username_exists u s → username_exists u (serve l s).
Proof.
  intros (d & Hd & Hu). destruct (serve_users_grow l s) as (extra & E).
  exists d. split; [|exact Hu]. rewrite E. apply elem_of_app. left. exact Hd.
Qed.

Lemma accepted_user (issued now : Z) (request : Request) (u : string) :
  cookies request !! "access_token" = Some (create_jwt_token issued u) →
  now < issued + 3600 →
  get_current_user now request = Return u.
Proof.
  intros Hc Hnow.
  rewrite (get_current_user_signed now request
             {| sub := Some u; exp := Some (issued + 3600);
                nbf := None; iat := None; aud := None |} Hc).
  rewrite (proj2 (validate_claims_None now _)); [reflexivity|].
  cbn. rewrite (proj2 (Z.leb_gt _ _)) by lia. repeat split.
Qed.

(** X5. A session outlives everything but its expiry. When [register] or
    [login] has succeeded at some time, then after any further requests,
    logout among them, GET /user with the token that was issued greets the
    user at every time less than 3600 seconds later. *)
Theorem session_is_served_until_expiry (e : env) (user : User)
    (response : Response) (s : state) (answer : JSONResponse * Response)
    (later : list (env * route * Request)) (e' : env) (request : Request) :
  cookies request !! "access_token"
  = Some (create_jwt_token (utcnow e) (username user)) →
  utcnow e' < utcnow e + 3600 →
  ((register e user response s).1 = Return answer →
   (app e' GET_user request (serve later (register e user response s).2)).1
   = Return (Dict (greeting (username user)), []))
  ∧ ((login e user response s).1 = Return answer →
     (app e' GET_user request (serve later (login e user response s).2)).1
     = Return (Dict (greeting (username user)), [])).
Proof.
  intros Hc Hnow.
  assert (Hu : get_current_user (utcnow e') request = Return (username user)).
  { exact (accepted_user (utcnow e) (utcnow e') request (username user)
             Hc Hnow). }
  split; intros Hok.
  - rewrite (app_GET_user e' request _ _ Hu).
    rewrite get_user_found; [reflexivity|].
    apply username_exists_serve.
    destruct (pwd_context_hash (new_salt e) (password user)) as [hash|]
      eqn:Hh.
    2:{ rewrite (register_refused e user response s Hh) in Hok.
        discriminate. }
    destruct (username_exists_dec (username user) s) as [Hex|Hex].
    + rewrite (register_conflict e user response s hash Hh Hex) in Hok.
      discriminate.
    + rewrite (register_fresh e user response s hash Hh Hex). cbn [snd].
      exists (registered_doc e user hash). split; [|reflexivity].
      cbn. apply elem_of_app. right. apply list_elem_of_singleton. reflexivity.
  - rewrite (app_GET_user e' request _ _ Hu).
    rewrite get_user_found; [reflexivity|].
    apply username_exists_serve.
    destruct (Mongo.find_one {[ "username" := BStr (username user) ]}
                (db_users s)) as [d|] eqn:E.
    + rewrite (login_found e user response s d E).
      destruct (pwd_verify _ _); cbn [snd];
        apply find_one_username_exists; eauto.
    + rewrite (login_unknown e user response s E) in Hok. discriminate.
Qed.

End Login.

Lemma login_outcome_witness :
  Mongo.find_one {[ "username" := BStr (username alice) ]} (db_users alice_state)
  = Some {| u_id := BObjectId 7; u_username := "alice";
            u_password := "$toy$wonderland" |}
  ∧ (login (H := toy_libraries) env0 alice [] alice_state).1
    = Return (session_response "User logged in successfully"
                (create_jwt_token (H := toy_libraries) 1000 "alice") []).
Proof.
  split; [vm_compute; reflexivity|].
  apply (proj2 (proj1 (proj2 (proj2 (login_outcome (H := toy_libraries)
           env0 alice [] alice_state))) _ ltac:(vm_compute; reflexivity))).
  vm_compute; reflexivity.
Defined.

Lemma get_user_outcome_witness :
  get_current_user (H := toy_libraries) (utcnow env0) bob_request = Return "bob"
  ∧ ¬ username_exists "bob" alice_state
  ∧ (app (H := toy_libraries) env0 GET_user bob_request alice_state).1
    = Return (Dict [("message", JStr "User not found")], []).
Proof.
  assert (Hno : ¬ username_exists "bob" alice_state).
  { intros (d & Hd & Hu). apply list_elem_of_singleton in Hd. subst d.
    discriminate Hu. }
  assert (Hu : get_current_user (H := toy_libraries) (utcnow env0) bob_request
               = Return "bob") by (vm_compute; reflexivity).
  split; [exact Hu|]. split; [exact Hno|].
  exact (proj2 (proj2 (get_user_outcome (H := toy_libraries) env0 bob_request
                         alice_state "bob") Hu) Hno).
Defined.

Lemma session_is_served_until_expiry_witness :
  cookies alice_request !! "access_token"
  = Some (create_jwt_token (H := toy_libraries) (utcnow env0) (username alice))
  ∧ utcnow env_4599 < utcnow env0 + 3600
  ∧ (register (H := toy_libraries) env0 alice [] empty_state).1
    = Return (session_response "User registered successfully"
                (create_jwt_token (H := toy_libraries) 1000 "alice") [])
  ∧ (app (H := toy_libraries) env_4599 GET_user alice_request
       (serve (H := toy_libraries) [(env0, POST_logout, no_cookie)]
          (register (H := toy_libraries) env0 alice [] empty_state).2)).1
    = Return (Dict (greeting (username alice)), []).
Proof.
  assert (Hc : cookies alice_request !! "access_token"
               = Some (create_jwt_token (H := toy_libraries) (utcnow env0)
                         (username alice))) by (vm_compute; reflexivity).
  assert (Ht : utcnow env_4599 < utcnow env0 + 3600) by reflexivity.
  assert (Hr : (register (H := toy_libraries) env0 alice [] empty_state).1
               = Return (session_response "User registered successfully"
                           (create_jwt_token (H := toy_libraries) 1000 "alice")
                           [])) by reflexivity.
  split; [exact Hc|]. split; [exact Ht|]. split; [exact Hr|].
  pose proof (proj1 (session_is_served_until_expiry (H := toy_libraries)
                       env0 alice [] empty_state _
                       [(env0, POST_logout, no_cookie)]
                       env_4599 alice_request Hc Ht) Hr) as Hserved.
  exact Hserved.
Defined.

(** ** Deleting and updating a task *)

Section Mutating.

(** A list either has no element that passes a test, or splits at the first
    one that does. *)
Lemma first_match {A} (f : A → bool) (l : list A) :
  Forall (λ x, f x = false) l
  ∨ ∃ l1 d l2, l = (l1 ++ d :: l2)%list
               ∧ Forall (λ x, f x = false) l1 ∧ f d = true.
Proof.
  induction l as [|a l IH].
  - left. constructor.
  - destruct (f a) eqn:Ha.
    + right. exists [], a, l. repeat split; [constructor|exact Ha].
    + destruct IH as [IH|(l1 & d & l2 & -> & H1 & Hd)].
      * left. constructor; assumption.
      * right. exists (a :: l1), d, l2. repeat split; [|exact Hd].
        constructor; assumption.
Qed.

Lemma update_one_split `{Document D} `{EqDecision D}
    (q : gmap string bson) (u : D → D) (l1 l2 : list D) (d : D) :
  Forall (λ x, Mongo.matches q x = false) l1 →
  Mongo.matches q d = true →
  Mongo.update_one q u (l1 ++ d :: l2)
  = ((l1 ++ u d :: l2)%list, if decide (u d = d) then 0%nat else 1%nat).
Proof.
  intros H1 Hd. induction H1 as [|a l1 Ha _ IH]; cbn.
  - rewrite Hd. reflexivity.
  - rewrite Ha, IH. reflexivity.
Qed.

Lemma delete_one_split `{Document D}
    (q : gmap string bson) (l1 l2 : list D) (d : D) :
  Forall (λ x, Mongo.matches q x = false) l1 →
  Mongo.matches q d = true →
  Mongo.delete_one q (l1 ++ d :: l2) = ((l1 ++ l2)%list, 1%nat).
Proof.
  intros H1 Hd. induction H1 as [|a l1 Ha _ IH]; cbn.
  - rewrite Hd. reflexivity.
  - rewrite Ha, IH. reflexivity.
Qed.

Lemma no_match_id (task_id : string) (c : list task_doc) :
  Forall (λ d, Mongo.matches {[ "_id" := BStr task_id ]} d = false) c
  ↔ Forall (λ d, t_id d ≠ BStr task_id) c.
Proof.
  apply Forall_iff. intros d. rewrite matches_id.
  apply bool_decide_eq_false.
Qed.

(** X6. [delete_task] answers 404 exactly when no stored task has the string
    of the path as its "_id". Otherwise it removes the first task that has
    it, and that task only, deletes the cache entry and answers "Task
    deleted". *)
Theorem delete_task_outcome (task_id : string) (s : state) :
  ((delete_task task_id s).1 = HTTPException 404 "Task not found"
   ↔ Forall (λ d, t_id d ≠ BStr task_id) (db_tasks s))
  ∧ ∀ l1 d l2,
      db_tasks s = (l1 ++ d :: l2)%list →
      Forall (λ x, t_id x ≠ BStr task_id) l1 →
      t_id d = BStr task_id →
      delete_task task_id s
      = (Return [("message", JStr "Task deleted")],
         {| db_users := db_users s;
            db_tasks := (l1 ++ l2)%list;
            redis_client := Redis.delete "tasks" (redis_client s) |}).
Proof.
  assert (Hsplit : ∀ l1 d l2,
      db_tasks s = (l1 ++ d :: l2)%list →
      Forall (λ x, t_id x ≠ BStr task_id) l1 →
      t_id d = BStr task_id →
      delete_task task_id s
      = (Return [("message", JStr "Task deleted")],
         {| db_users := db_users s;
            db_tasks := (l1 ++ l2)%list;
            redis_client := Redis.delete "tasks" (redis_client s) |})).
  { intros l1 d l2 E H1 Hd. unfold_handler. rewrite E.
    rewrite delete_one_split.
    - reflexivity.
    - apply no_match_id, H1.
    - rewrite matches_id. apply bool_decide_eq_true_2, Hd. }
  split; [|exact Hsplit]. split.
  - intros Hr.
    destruct (first_match (Mongo.matches {[ "_id" := BStr task_id ]})
                (db_tasks s)) as [Hno|(l1 & d & l2 & E & H1 & Hd)].
    + apply no_match_id, Hno.
    + rewrite (Hsplit l1 d l2 E) in Hr.
      * cbn [fst] in Hr. discriminate Hr.
      * apply no_match_id, H1.
      * rewrite matches_id in Hd. apply bool_decide_eq_true_1 in Hd. exact Hd.
  - intros Hno. unfold_handler.
    rewrite delete_one_no_match by (apply no_match_id, Hno). reflexivity.
Qed.

(** X7. When the first stored task whose "_id" is the string of the path
    differs from the body in one of the four fields of the schema,
    [update_task] gives it those fields, keeps its "_id" and "created_at",
    leaves every other task as it is, deletes the cache entry and answers
    "Task updated". When it already has the four fields of the body,
    [update_task] answers 404 "Task not found" and changes nothing. *)
Theorem update_task_outcome (task_id : string) (task : TaskSchema) (s : state)
    (l1 l2 : list task_doc) (d : task_doc) :
  db_tasks s = (l1 ++ d :: l2)%list →
  Forall (λ x, t_id x ≠ BStr task_id) l1 →
  t_id d = BStr task_id →
  (set_fields task d ≠ d →
   update_task task_id task s
   = (Return [("message", JStr "Task updated")],
      {| db_users := db_users s;
         db_tasks := (l1 ++ set_fields task d :: l2)%list;
         redis_client := Redis.delete "tasks" (redis_client s) |}))
  ∧ (set_fields task d = d →
     update_task task_id task s = (HTTPException 404 "Task not found", s))
  ∧ t_id (set_fields task d) = t_id d
  ∧ t_created_at (set_fields task d) = t_created_at d.
Proof.
  intros E H1 Hd.
  assert (Hu : Mongo.update_one {[ "_id" := BStr task_id ]} (set_fields task)
                 (db_tasks s)
               = ((l1 ++ set_fields task d :: l2)%list,
                  if decide (set_fields task d = d) then 0%nat else 1%nat)).
  { rewrite E. apply update_one_split.
    - apply no_match_id, H1.
    - rewrite matches_id. apply bool_decide_eq_true_2, Hd. }
  split; [|split; [|split; reflexivity]].
  - intros Hne. unfold_handler. rewrite Hu.
    rewrite decide_False by exact Hne. reflexivity.
  - intros Heq. unfold_handler. rewrite Hu.
    rewrite decide_True by exact Heq. cbn. rewrite Heq, <- E, state_eta.
    reflexivity.
Qed.

Lemma update_one_related `{Document D} `{EqDecision D}
    (q : gmap string bson) (u : D → D) (c : list D) :
  Forall2 (λ old new, new = old ∨ (Mongo.matches q old = true ∧ new = u old))
    c (Mongo.update_one q u c).1.
Proof.
  induction c as [|d c IH]; cbn; [constructor|].
  destruct (Mongo.matches q d) eqn:Hd; cbn.
  - constructor; [right; split; [exact Hd|reflexivity]|].
    apply Forall2_same_length_lookup. split; [reflexivity|].
    intros i x y Hx Hy. left. congruence.
  - destruct (Mongo.update_one q u c) as [c' n]. cbn in *.
    constructor; [left; reflexivity|exact IH].
Qed.

(** X8. Whatever its outcome, [update_task] never changes the users, the
    number of tasks, their order, the "_id" or the "created_at" of any task:
    each task is as it was or, if its "_id" is the string of the path, has
    taken the four fields of the body. *)
Theorem update_task_keeps_identity (task_id : string) (task : TaskSchema)
    (s : state) :
  let s' := (update_task task_id task s).2 in
  db_users s' = db_users s
  ∧ Forall2 (λ old new, new = old
                        ∨ (t_id old = BStr task_id ∧ new = set_fields task old))
      (db_tasks s) (db_tasks s')
  ∧ t_id <$> db_tasks s' = t_id <$> db_tasks s
  ∧ t_created_at <$> db_tasks s' = t_created_at <$> db_tasks s.
Proof.
  assert (Hrel : Forall2 (λ old new, new = old
                   ∨ (t_id old = BStr task_id ∧ new = set_fields task old))
                   (db_tasks s) (db_tasks (update_task task_id task s).2)
                 ∧ db_users (update_task task_id task s).2 = db_users s).
  { pose proof (update_one_related {[ "_id" := BStr task_id ]}
                  (set_fields task) (db_tasks s)) as Hrel.
    unfold_handler.
    destruct (Mongo.update_one _ _ _) as [c n]. cbn in Hrel.
    assert (Hrel' : Forall2 (λ old new, new = old
                      ∨ (t_id old = BStr task_id ∧ new = set_fields task old))
                      (db_tasks s) c).
    { eapply Forall2_impl; [exact Hrel|]. intros old new [->|[Hm ->]].
      - left. reflexivity.
      - right. split; [|reflexivity].
        rewrite matches_id in Hm. apply bool_decide_eq_true_1 in Hm. exact Hm. }
    destruct n; cbn; split; try reflexivity; exact Hrel'. }
  destruct Hrel as [Hrel Hus]. cbv zeta.
  split; [exact Hus|]. split; [exact Hrel|].
  induction Hrel as [|old new c c' Hon _ IH]; [split; reflexivity|].
  destruct IH as [IH1 IH2]. rewrite !fmap_cons, IH1, IH2.
  destruct Hon as [->|[_ ->]]; split; reflexivity.
Qed.

Lemma set_fields_twice (task : TaskSchema) (d : task_doc) :
  set_fields task (set_fields task d) = set_fields task d.
Proof. reflexivity. Qed.

(** X9. The answer of [update_task] is not repeatable: when an update has
    succeeded, the same update sent again answers 404 "Task not found" and
    changes nothing, the task being stored with the fields of the body. *)
Theorem repeated_update_is_not_found (task_id : string) (task : TaskSchema)
    (s : state) (c : content) :
  (update_task task_id task s).1 = Return c →
  let s' := (update_task task_id task s).2 in
  update_task task_id task s' = (HTTPException 404 "Task not found", s')
  ∧ ∃ d, d ∈ db_tasks s' ∧ t_id d = BStr task_id ∧ set_fields task d = d.
Proof.
  intros Hok.
  destruct (first_match (Mongo.matches {[ "_id" := BStr task_id ]})
              (db_tasks s)) as [Hno|(l1 & d & l2 & E & H1 & Hd)].
  { exfalso. revert Hok. unfold_handler.
    rewrite update_one_no_match by exact Hno. discriminate. }
  assert (Hu : Mongo.update_one {[ "_id" := BStr task_id ]} (set_fields task)
                 (db_tasks s)
               = ((l1 ++ set_fields task d :: l2)%list,
                  if decide (set_fields task d = d) then 0%nat else 1%nat)).
  { rewrite E. apply update_one_split; assumption. }
  assert (Hs' : (update_task task_id task s).2
                = {| db_users := db_users s;
                     db_tasks := (l1 ++ set_fields task d :: l2)%list;
                     redis_client := Redis.delete "tasks" (redis_client s) |}).
  { revert Hok. unfold_handler. rewrite Hu.
    destruct (decide (set_fields task d = d)); [discriminate|reflexivity]. }
  cbv zeta. rewrite Hs'. split.
  - unfold_handler. cbn [db_tasks].
    rewrite update_one_split; [|exact H1|].
    + rewrite set_fields_twice, decide_True by reflexivity. reflexivity.
    + rewrite matches_id in Hd |- *. exact Hd.
  - exists (set_fields task d). split; [|split].
    + cbn. apply elem_of_app. right. left.
    + cbn. rewrite matches_id in Hd. apply bool_decide_eq_true_1 in Hd. exact Hd.
    + apply set_fields_twice.
Qed.

End Mutating.

Lemma delete_task_outcome_witness :
  db_tasks two_tasks_state = ([string_keyed_task] ++ t2_task :: [])%list
  ∧ Forall (λ x, t_id x ≠ BStr "t2") [string_keyed_task]
  ∧ t_id t2_task = BStr "t2"
  ∧ delete_task "t2" two_tasks_state
    = (Return [("message", JStr "Task deleted")],
       {| db_users := [];
          db_tasks := ([string_keyed_task] ++ [])%list;
          redis_client := Redis.delete "tasks" (redis_client two_tasks_state) |}).
Proof.
  assert (H1 : Forall (λ x, t_id x ≠ BStr "t2") [string_keyed_task])
    by (repeat constructor; discriminate).
  split; [reflexivity|]. split; [exact H1|]. split; [reflexivity|].
  exact (proj2 (delete_task_outcome "t2" two_tasks_state)
           [string_keyed_task] t2_task [] eq_refl H1 eq_refl).
Defined.

Lemma update_task_outcome_witness :
  db_tasks string_keyed_state = ([] ++ string_keyed_task :: [])%list
  ∧ t_id string_keyed_task = BStr "t1"
  ∧ set_fields milk_bought string_keyed_task ≠ string_keyed_task
  ∧ update_task "t1" milk_bought string_keyed_state
    = (Return [("message", JStr "Task updated")],
       {| db_users := [];
          db_tasks := ([] ++ set_fields milk_bought string_keyed_task :: [])%list;
          redis_client := Redis.delete "tasks" (redis_client string_keyed_state) |}).
Proof.
  assert (Hne : set_fields milk_bought string_keyed_task ≠ string_keyed_task).
  { intros E. apply (f_equal t_status) in E. discriminate E. }
  split; [reflexivity|]. split; [reflexivity|]. split; [exact Hne|].
  exact (proj1 (update_task_outcome "t1" milk_bought string_keyed_state
                  [] [] string_keyed_task eq_refl (Forall_nil_2 _) eq_refl) Hne).
Defined.

Lemma repeated_update_is_not_found_witness :
  (update_task "t1" milk_bought string_keyed_state).1
  = Return [("message", JStr "Task updated")]
  ∧ update_task "t1" milk_bought
      (update_task "t1" milk_bought string_keyed_state).2
    = (HTTPException 404 "Task not found",
       (update_task "t1" milk_bought string_keyed_state).2).
Proof.
  assert (Hok : (update_task "t1" milk_bought string_keyed_state).1
                = Return [("message", JStr "Task updated")])
    by (vm_compute; reflexivity).
  split; [exact Hok|].
  exact (proj1 (repeated_update_is_not_found "t1" milk_bought
                  string_keyed_state _ Hok)).
Defined.

(** ** The listing, the cache and the store *)

Section Freshness.

Context `{Libraries}.

Lemma get_tasks_miss (e : env) (st : option StatusEnum)
    (pr : option PriorityEnum) (s : state) :
  truthy (Redis.get (utcnow e) "tasks" (redis_client s)) = false →
  get_tasks e st pr s
  = (Return (fresh_listing st pr (db_tasks s)),
     {| db_users := db_users s;
        db_tasks := db_tasks s;
        redis_client :=
          Redis.setex (utcnow e) "tasks" 60
            (json_dumps (fresh_listing st pr (db_tasks s))) (redis_client s) |}).
Proof.
  intros Hmiss. unfold_handler. rewrite Hmiss. cbn. unfold Mongo.find.
  rewrite (list_filter_iff _ (λ d, selected st pr d))
    by (intros d; apply matches_build_query).
  reflexivity.
Qed.

(** X10. A listing computed for one pair of filters is what every call gets
    for the next 60 seconds, whatever its own filters: when [get_tasks]
    misses the cache and the listing it computes survives [json.dumps] and
    [json.loads], a call made less than 60 seconds later with any status and
    priority returns that listing and changes nothing. *)
Theorem cached_listing_serves_other_filters (e e' : env)
    (st st' : option StatusEnum) (pr pr' : option PriorityEnum) (s : state) :
  truthy (Redis.get (utcnow e) "tasks" (redis_client s)) = false →
  json_dumps (fresh_listing st pr (db_tasks s)) ≠ "" →
  json_loads (json_dumps (fresh_listing st pr (db_tasks s)))
  = Some (fresh_listing st pr (db_tasks s)) →
  utcnow e' < utcnow e + 60 →
  (get_tasks e st pr s).1 = Return (fresh_listing st pr (db_tasks s))
  ∧ get_tasks e' st' pr' (get_tasks e st pr s).2
    = (Return (fresh_listing st pr (db_tasks s)), (get_tasks e st pr s).2).
Proof.
  intros Hmiss Hne Hrt Hnow. rewrite (get_tasks_miss e st pr s Hmiss).
  split; [reflexivity|]. cbn [snd].
  assert (Hget : Redis.get (utcnow e') "tasks"
                   (Redis.setex (utcnow e) "tasks" 60
                      (json_dumps (fresh_listing st pr (db_tasks s)))
                      (redis_client s))
                 = Some (json_dumps (fresh_listing st pr (db_tasks s)))).
  { unfold Redis.get, Redis.setex. rewrite lookup_insert_eq.
    unfold Redis.live. cbn. rewrite bool_decide_eq_true_2 by exact Hnow.
    reflexivity. }
  rewrite get_tasks_hit; cbn [redis_client]; rewrite Hget.
  - cbn. unfold decoded. rewrite Hrt. reflexivity.
  - cbn. apply negb_true_iff, String.eqb_neq, Hne.
Qed.

Lemma miss_after_delete (now : Z) (r : gmap string (string * option Z)) :
  truthy (Redis.get now "tasks" (Redis.delete "tasks" r)) = false.
Proof. rewrite get_after_delete. reflexivity. Qed.

(** X11. After an update or a delete that succeeded, the next listing is
    not taken from the cache: at any time and for any filters it is computed
    from the tasks as the update or the delete left them. *)
Theorem listing_after_mutation_is_fresh (task_id : string) (task : TaskSchema)
    (s : state) (e : env) (st : option StatusEnum) (pr : option PriorityEnum) :
  (∀ c, (update_task task_id task s).1 = Return c →
        (get_tasks e st pr (update_task task_id task s).2).1
        = Return (fresh_listing st pr
                    (db_tasks (update_task task_id task s).2)))
  ∧ (∀ c, (delete_task task_id s).1 = Return c →
          (get_tasks e st pr (delete_task task_id s).2).1
          = Return (fresh_listing st pr (db_tasks (delete_task task_id s).2))).
Proof.
  split; intros c Hok.
  - destruct (update_task_cases task_id task s) as [Hr | [c' Hr]];
      rewrite Hr in Hok |- *; [discriminate Hok|].
    cbn [snd]. rewrite get_tasks_miss by apply miss_after_delete.
    reflexivity.
  - destruct (delete_task_cases task_id s) as [Hr | [c' Hr]];
      rewrite Hr in Hok |- *; [discriminate Hok|].
    cbn [snd]. rewrite get_tasks_miss by apply miss_after_delete.
    reflexivity.
Qed.

(** X12. The listing stops at 100 tasks. After [create_task], a listing that
    misses the cache ends with the new task when the task passes the filters
    and fewer than 100 stored tasks passed them before; when 100 or more
    did, or when the new task does not pass the filters, the listing is what
    it would have been without the creation. *)
Theorem created_task_in_fresh_listing (e e' : env) (task : TaskSchema)
    (s : state) (st : option StatusEnum) (pr : option PriorityEnum) :
  truthy (Redis.get (utcnow e') "tasks" (redis_client s)) = false →
  let s' := (create_task e task s).2 in
  let before := filter (λ d : task_doc, selected st pr d) (db_tasks s) in
  (selected st pr (created_doc e task) = true →
   (List.length before < 100)%nat →
   (get_tasks e' st pr s').1
   = Return (serializable <$> (before ++ [created_doc e task])%list))
  ∧ (selected st pr (created_doc e task) = false
     ∨ (100 ≤ List.length before)%nat →
     (get_tasks e' st pr s').1 = (get_tasks e' st pr s).1).
Proof.
  intros Hmiss s' before.
  assert (Hs' : (get_tasks e' st pr s').1
                = Return (fresh_listing st pr
                            (db_tasks s ++ [created_doc e task])%list)).
  { subst s'. rewrite get_tasks_miss by exact Hmiss. reflexivity. }
  rewrite Hs', (get_tasks_miss e' st pr s Hmiss). cbn [fst].
  unfold fresh_listing. rewrite filter_app. fold before.
  split.
  - intros Hsel Hlt. rewrite filter_cons, decide_True by (apply Is_true_true, Hsel).
    rewrite filter_nil, take_ge; [reflexivity|].
    rewrite length_app. cbn. lia.
  - intros [Hsel|Hge].
    + rewrite filter_cons, decide_False
        by (rewrite Hsel; intros []).
      rewrite filter_nil, app_nil_r. reflexivity.
    + rewrite take_app_le by exact Hge. reflexivity.
Qed.

End Freshness.

Lemma cached_listing_serves_other_filters_witness :
  truthy (Redis.get (utcnow env0) "tasks" (redis_client mixed_state)) = false
  ∧ json_loads (Libraries := toy_libraries)
      (json_dumps (Libraries := toy_libraries)
         (fresh_listing (H := toy_libraries) (Some pending) None
            (db_tasks mixed_state)))
    = Some (fresh_listing (H := toy_libraries) (Some pending) None
              (db_tasks mixed_state))
  ∧ utcnow env_1059 < utcnow env0 + 60
  ∧ (get_tasks (H := toy_libraries) env_1059 (Some completed) (Some high)
       (get_tasks (H := toy_libraries) env0 (Some pending) None mixed_state).2).1
    = Return (fresh_listing (H := toy_libraries) (Some pending) None
                (db_tasks mixed_state))
  ∧ j_id <$> fresh_listing (H := toy_libraries) (Some pending) None
               (db_tasks mixed_state)
    = ["0000000000000000000000ff"; "t1"]
  ∧ j_id <$> fresh_listing (H := toy_libraries) (Some completed) (Some high)
               (db_tasks mixed_state)
    = ["t2"].
Proof.
  assert (Hmiss : truthy (Redis.get (utcnow env0) "tasks"
                            (redis_client mixed_state)) = false)
    by (vm_compute; reflexivity).
  assert (Hne : json_dumps (Libraries := toy_libraries)
                  (fresh_listing (H := toy_libraries) (Some pending) None
                     (db_tasks mixed_state)) ≠ "") by discriminate.
  assert (Hrt : json_loads (Libraries := toy_libraries)
                  (json_dumps (Libraries := toy_libraries)
                     (fresh_listing (H := toy_libraries) (Some pending) None
                        (db_tasks mixed_state)))
                = Some (fresh_listing (H := toy_libraries) (Some pending) None
                          (db_tasks mixed_state)))
    by (vm_compute; reflexivity).
  assert (Hnow : utcnow env_1059 < utcnow env0 + 60) by reflexivity.
  split; [exact Hmiss|]. split; [exact Hrt|]. split; [exact Hnow|].
  split; [|split; vm_compute; reflexivity].
  rewrite (proj2 (cached_listing_serves_other_filters (H := toy_libraries)
                    env0 env_1059 (Some pending) (Some completed)
                    None (Some high) mixed_state
                    Hmiss Hne Hrt Hnow)).
  reflexivity.
Defined.

Lemma listing_after_mutation_is_fresh_witness :
  (delete_task "t2" two_tasks_state).1 = Return [("message", JStr "Task deleted")]
  ∧ (get_tasks (H := toy_libraries) env0 None None
       (delete_task "t2" two_tasks_state).2).1
    = Return (fresh_listing (H := toy_libraries) None None
                (db_tasks (delete_task "t2" two_tasks_state).2)).
Proof.
  assert (Hok : (delete_task "t2" two_tasks_state).1
                = Return [("message", JStr "Task deleted")])
    by (vm_compute; reflexivity).
  split; [exact Hok|].
  exact (proj2 (listing_after_mutation_is_fresh (H := toy_libraries)
                  "t2" buy_milk two_tasks_state env0 None None) _ Hok).
Defined.

Lemma created_task_in_fresh_listing_witness :
  truthy (Redis.get (utcnow env0) "tasks" (redis_client string_keyed_state))
  = false
  ∧ selected (Some pending) None (created_doc env0 buy_milk) = true
  ∧ (get_tasks (H := toy_libraries) env0 (Some pending) None
       (create_task (H := toy_libraries) env0 buy_milk string_keyed_state).2).1
    = Return (serializable (H := toy_libraries)
                <$> [string_keyed_task; created_doc env0 buy_milk]).
Proof.
  assert (Hmiss : truthy (Redis.get (utcnow env0) "tasks"
                            (redis_client string_keyed_state)) = false)
    by (vm_compute; reflexivity).
  split; [exact Hmiss|]. split; [reflexivity|].
  apply (proj1 (created_task_in_fresh_listing (H := toy_libraries)
                  env0 env0 buy_milk string_keyed_state (Some pending) None
                  Hmiss)).
  - reflexivity.
  - vm_compute. lia.
Defined.

(** ** What the requests keep *)

Section Keeping.

Context `{Libraries}.

(** What a request does to the users: nothing, or the registration of a
    username that was not stored. *)
Lemma app_users (e : env) (r : route) (request : Request) (s : state) :
  db_users (app e r request s).2 = db_users s
  ∨ ∃ user hash, r = POST_register user
                 ∧ ¬ username_exists (username user) s
                 ∧ db_users (app e r request s).2
                   = (db_users s ++ [registered_doc e user hash])%list.
Proof.
  destruct r; [|left; unfold_handler..].
  - destruct (pwd_context_hash (new_salt e) (password user)) as [hash|]
      eqn:Hh.
    2:{ left. unfold app. unfold bind at 1.
        rewrite (register_refused e user [] s Hh). reflexivity. }
    destruct (username_exists_dec (username user) s) as [Hex|Hex].
    + left. unfold app. unfold bind at 1.
      rewrite (register_conflict e user [] s hash Hh Hex). reflexivity.
    + right. exists user, hash. split; [reflexivity|]. split; [exact Hex|].
      unfold app. unfold bind at 1.
      rewrite (register_fresh e user [] s hash Hh Hex). reflexivity.
  - destruct (Mongo.find_one _ _); [|reflexivity].
    destruct (pwd_verify _ _); reflexivity.
  - reflexivity.
  - reflexivity.
  - destruct (truthy _); [|reflexivity]. destruct (json_loads _); reflexivity.
  - destruct (Mongo.update_one _ _ _) as [c [|n]]; reflexivity.
  - destruct (Mongo.delete_one _ _) as [c [|n]]; reflexivity.
  - destruct (get_current_user _ _); [|reflexivity..].
    destruct (Mongo.find_one _ _); reflexivity.
  - reflexivity.
Qed.

(** X13. Served one after the other, the requests keep the usernames
    unique: if no two stored users have the same username, no sequence of
    requests makes two of them have it. *)
Theorem usernames_stay_unique (l : list (env * route * Request)) (s : state) :
  usernames_unique s → usernames_unique (serve l s).
Proof.
  revert s. induction l as [|[[e r] request] l IH]; intros s Hs; cbn.
  - exact Hs.
  - apply IH. unfold usernames_unique in *.
    destruct (app_users e r request s) as [-> | (user & hash & _ & Hex & ->)].
    + exact Hs.
    + rewrite fmap_app. apply NoDup_app. split; [exact Hs|]. split.
      * intros u Hu Hu'. apply list_elem_of_singleton in Hu'. cbn in Hu'.
        subst u. apply Hex. apply list_elem_of_fmap in Hu as (d & Hd & Hin).
        exists d. split; [exact Hin|congruence].
      * apply NoDup_singleton.
Qed.

(** X14. No request changes or removes a stored user: through any sequence
    of requests, the users are the users there were, followed by new ones,
    and the document that [login] checks a username against stays the
    same. *)
Theorem stored_users_never_change (l : list (env * route * Request))
    (s : state) :
  db_users s `prefix_of` db_users (serve l s)
  ∧ ∀ u d, Mongo.find_one {[ "username" := BStr u ]} (db_users s) = Some d →
           Mongo.find_one {[ "username" := BStr u ]} (db_users (serve l s))
           = Some d.
Proof.
  destruct (serve_users_grow l s) as (extra & E). rewrite E. split.
  - exists extra. reflexivity.
  - intros u d Hd. apply find_one_app, Hd.
Qed.

(** What a request does to the cache: nothing, or something to the key
    "tasks". *)
Lemma app_cache_other_keys (e : env) (r : route) (request : Request)
    (s : state) (k : string) :
  k ≠ "tasks" →
  redis_client (app e r request s).2 !! k = redis_client s !! k.
Proof.
  intros Hk. destruct r.
  - unfold_handler. destruct (pwd_context_hash _ _); [|reflexivity].
    destruct (Mongo.find_one _ _); reflexivity.
  - unfold_handler. destruct (Mongo.find_one _ _); [|reflexivity].
    destruct (pwd_verify _ _); reflexivity.
  - reflexivity.
  - reflexivity.
  - unfold_handler. destruct (truthy _).
    + destruct (json_loads _); reflexivity.
    + cbn. unfold Redis.setex. rewrite lookup_insert_ne by congruence.
      reflexivity.
  - unfold app. unfold bind at 1.
    destruct (update_task_cases task_id task s) as [-> | [c ->]];
      [reflexivity|].
    cbn. unfold Redis.delete. rewrite lookup_delete_ne by congruence.
    reflexivity.
  - unfold app. unfold bind at 1.
    destruct (delete_task_cases task_id s) as [-> | [c ->]]; [reflexivity|].
    cbn. unfold Redis.delete. rewrite lookup_delete_ne by congruence.
    reflexivity.
  - unfold_handler. destruct (get_current_user _ _); [|reflexivity..].
    destruct (Mongo.find_one _ _); reflexivity.
  - reflexivity.
Qed.

(** X15. The application uses one key of the cache: through any sequence of
    requests, every key other than "tasks" holds what it held. *)
Theorem only_the_tasks_key_is_touched (l : list (env * route * Request))
    (s : state) (k : string) :
  k ≠ "tasks" →
  redis_client (serve l s) !! k = redis_client s !! k.
Proof.
  intros Hk. revert s. induction l as [|[[e r] request] l IH]; intros s; cbn.
  - reflexivity.
  - rewrite IH. apply app_cache_other_keys, Hk.
Qed.

(** X16. The two halves of the application are apart: a task route never
    changes the users, and every other route changes neither the tasks nor
    the cache. Of the task routes, the listing never changes the tasks and
    the creation never removes or changes one. *)
Theorem routes_keep_to_their_store (e : env) (r : route) (request : Request)
    (s : state) :
  (task_route r = true → db_users (app e r request s).2 = db_users s)
  ∧ (task_route r = false →
     db_tasks (app e r request s).2 = db_tasks s
     ∧ redis_client (app e r request s).2 = redis_client s)
  ∧ (∀ st pr, r = GET_tasks st pr →
              db_tasks (app e r request s).2 = db_tasks s)
  ∧ (∀ task, r = POST_tasks task →
             db_tasks (app e r request s).2
             = (db_tasks s ++ [created_doc e task])%list).
Proof.
  split; [|split; [|split]].
  - intros Hr.
    destruct (app_users e r request s) as [E | (user & hash & -> & _)];
      [exact E|discriminate Hr].
  - destruct r; try discriminate; intros _; unfold_handler.
    + destruct (pwd_context_hash _ _); [|split; reflexivity].
      destruct (Mongo.find_one _ _); split; reflexivity.
    + destruct (Mongo.find_one _ _); [|split; reflexivity].
      destruct (pwd_verify _ _); split; reflexivity.
    + split; reflexivity.
    + destruct (get_current_user _ _); [|split; reflexivity..].
      destruct (Mongo.find_one _ _); split; reflexivity.
    + split; reflexivity.
  - intros st pr ->. unfold_handler. destruct (truthy _); [|reflexivity].
    destruct (json_loads _); reflexivity.
  - intros task ->. reflexivity.
Qed.

Lemma StatusEnum_round_trip (x : StatusEnum) :
  StatusEnum_of_value (status_value x) = Some x.
Proof. destruct x; reflexivity. Qed.

Lemma PriorityEnum_round_trip (y : PriorityEnum) :
  PriorityEnum_of_value (priority_value y) = Some y.
Proof. destruct y; reflexivity. Qed.

Lemma set_fields_enum_valued (task : TaskSchema) (d : task_doc) :
  enum_valued (set_fields task d).
Proof.
  split; cbn; [rewrite StatusEnum_round_trip|rewrite PriorityEnum_round_trip];
    eexists; reflexivity.
Qed.

Lemma update_one_Forall `{Document D} `{EqDecision D} (P : D → Prop)
    (q : gmap string bson) (u : D → D) (c : list D) :
  (∀ d, P (u d)) → Forall P c → Forall P (Mongo.update_one q u c).1.
Proof.
  intros Hu. induction 1 as [|d c Hd Hc IH]; cbn; [constructor|].
  destruct (Mongo.matches q d); cbn.
  - constructor; [apply Hu|exact Hc].
  - destruct (Mongo.update_one q u c) as [c' n]. constructor; assumption.
Qed.

Lemma delete_one_Forall `{Document D} (P : D → Prop)
    (q : gmap string bson) (c : list D) :
  Forall P c → Forall P (Mongo.delete_one q c).1.
Proof.
  induction 1 as [|d c Hd Hc IH]; cbn; [constructor|].
  destruct (Mongo.matches q d); cbn; [exact Hc|].
  destruct (Mongo.delete_one q c) as [c' n]. constructor; assumption.
Qed.

Lemma app_enum_valued (e : env) (r : route) (request : Request) (s : state) :
  Forall enum_valued (db_tasks s) →
  Forall enum_valued (db_tasks (app e r request s).2).
Proof.
  intros Hs. destruct r.
  - unfold_handler. destruct (pwd_context_hash _ _); [|exact Hs].
    destruct (Mongo.find_one _ _); exact Hs.
  - unfold_handler. destruct (Mongo.find_one _ _); [|exact Hs].
    destruct (pwd_verify _ _); exact Hs.
  - exact Hs.
  - cbn. apply Forall_app. split; [exact Hs|]. repeat constructor; cbn;
      [rewrite StatusEnum_round_trip|rewrite PriorityEnum_round_trip];
      eexists; reflexivity.
  - unfold_handler. destruct (truthy _); [|exact Hs].
    destruct (json_loads _); exact Hs.
  - pose proof (update_one_Forall enum_valued {[ "_id" := BStr task_id ]}
                  (set_fields task) (db_tasks s)
                  (set_fields_enum_valued task) Hs) as Hu.
    unfold_handler. destruct (Mongo.update_one _ _ _) as [c [|n]]; exact Hu.
  - pose proof (delete_one_Forall enum_valued {[ "_id" := BStr task_id ]}
                  (db_tasks s) Hs) as Hd.
    unfold_handler. destruct (Mongo.delete_one _ _) as [c [|n]]; exact Hd.
  - unfold_handler. destruct (get_current_user _ _); [|exact Hs..].
    destruct (Mongo.find_one _ _); exact Hs.
  - exact Hs.
Qed.

(** X17. The stored status and priority are always values of the enums:
    if every stored task has a status that [StatusEnum] knows and a priority
    that [PriorityEnum] knows, so has every stored task after any sequence
    of requests; and the value of each member is read back as that
    member. *)
Theorem stored_enums_stay_valid (l : list (env * route * Request))
    (s : state) :
  (Forall enum_valued (db_tasks s) → Forall enum_valued (db_tasks (serve l s)))
  ∧ (∀ x, StatusEnum_of_value (status_value x) = Some x)
  ∧ (∀ y, PriorityEnum_of_value (priority_value y) = Some y).
Proof.
  split; [|split; [apply StatusEnum_round_trip|apply PriorityEnum_round_trip]].
  revert s. induction l as [|[[e r] request] l IH]; intros s Hs; cbn.
  - exact Hs.
  - apply IH, app_enum_valued, Hs.
Qed.

End Keeping.

Lemma usernames_stay_unique_witness :
  usernames_unique alice_state
  ∧ usernames_unique
      (serve (H := toy_libraries)
         [(env0, POST_register alice, no_cookie);
          (env0, POST_register bob, no_cookie)] alice_state).
Proof.
  assert (Hu : usernames_unique alice_state).
  { unfold usernames_unique. cbn. apply NoDup_singleton. }
  split; [exact Hu|].
  apply (usernames_stay_unique (H := toy_libraries)), Hu.
Defined.

Lemma stored_users_never_change_witness :
  Mongo.find_one {[ "username" := BStr "alice" ]} (db_users alice_state)
  = Some {| u_id := BObjectId 7; u_username := "alice";
            u_password := "$toy$wonderland" |}
  ∧ Mongo.find_one {[ "username" := BStr "alice" ]}
      (db_users (serve (H := toy_libraries)
                   [(env0, POST_register alice, no_cookie);
                    (env0, POST_register bob, no_cookie)] alice_state))
    = Some {| u_id := BObjectId 7; u_username := "alice";
              u_password := "$toy$wonderland" |}.
Proof.
  assert (Hf : Mongo.find_one {[ "username" := BStr "alice" ]}
                 (db_users alice_state)
               = Some {| u_id := BObjectId 7; u_username := "alice";
                         u_password := "$toy$wonderland" |})
    by (vm_compute; reflexivity).
  split; [exact Hf|].
  exact (proj2 (stored_users_never_change (H := toy_libraries)
                  [(env0, POST_register alice, no_cookie);
                   (env0, POST_register bob, no_cookie)] alice_state)
           "alice" _ Hf).
Defined.

Lemma only_the_tasks_key_is_touched_witness :
  "other" ≠ "tasks"
  ∧ redis_client
      (serve (H := toy_libraries)
         [(env0, DELETE_tasks "t2", no_cookie);
          (env0, GET_tasks None None, no_cookie)] two_tasks_state)
    !! "other"
    = redis_client two_tasks_state !! "other".
Proof.
  assert (Hk : "other" ≠ "tasks") by discriminate.
  split; [exact Hk|].
  exact (only_the_tasks_key_is_touched (H := toy_libraries)
           [(env0, DELETE_tasks "t2", no_cookie);
            (env0, GET_tasks None None, no_cookie)] two_tasks_state
           "other" Hk).
Defined.

Lemma routes_keep_to_their_store_witness :
  task_route (DELETE_tasks "t2") = true
  ∧ db_users (app (H := toy_libraries) env0 (DELETE_tasks "t2") no_cookie
                two_tasks_state).2
    = db_users two_tasks_state.
Proof.
  split; [reflexivity|].
  exact (proj1 (routes_keep_to_their_store (H := toy_libraries) env0
                  (DELETE_tasks "t2") no_cookie two_tasks_state) eq_refl).
Defined.

Lemma stored_enums_stay_valid_witness :
  Forall enum_valued (db_tasks two_tasks_state)
  ∧ Forall enum_valued
      (db_tasks (serve (H := toy_libraries)
                   [(env0, PUT_tasks "t2" milk_bought, no_cookie);
                    (env0, POST_tasks buy_milk, no_cookie)] two_tasks_state)).
Proof.
  assert (Hv : Forall enum_valued (db_tasks two_tasks_state)).
  { repeat constructor; eexists; reflexivity. }
  split; [exact Hv|].
  exact (proj1 (stored_enums_stay_valid (H := toy_libraries)
                  [(env0, PUT_tasks "t2" milk_bought, no_cookie);
                   (env0, POST_tasks buy_milk, no_cookie)] two_tasks_state)
           Hv).
Defined.

(** ** Tasks of the application stay *)

Section Staying.

Context `{Libraries}.

(** X18. In a collection whose tasks are all keyed by ObjectIds, as the
    tasks [create_task] inserts are, no sequence of requests changes or
    removes a task: the tasks are the tasks there were, followed by those
    created since, still all keyed by ObjectIds, and every update and every
    delete among the requests was answered 404. *)
Theorem application_tasks_only_grow (l : list (env * route * Request))
    (s : state) :
  oid_keyed (db_tasks s) →
  db_tasks s `prefix_of` db_tasks (serve l s)
  ∧ oid_keyed (db_tasks (serve l s))
  ∧ ∀ e task_id request,
      (∀ task, (app e (PUT_tasks task_id task) request (serve l s)).1
               = HTTPException 404 "Task not found")
      ∧ (app e (DELETE_tasks task_id) request (serve l s)).1
        = HTTPException 404 "Task not found".
Proof.
  intros Hk. destruct (serve_tasks_grow l s Hk) as (extra & E & Kx).
  assert (Hks : oid_keyed (db_tasks (serve l s))).
  { rewrite E. apply Forall_app. split; assumption. }
  split; [rewrite E; exists extra; reflexivity|]. split; [exact Hks|].
  intros e task_id request. split.
  - intros task. rewrite app_PUT_tasks.
    rewrite update_task_oid_keyed by exact Hks. reflexivity.
  - rewrite app_DELETE_tasks.
    rewrite delete_task_oid_keyed by exact Hks. reflexivity.
Qed.

End Staying.

Lemma application_tasks_only_grow_witness :
  oid_keyed (db_tasks empty_state)
  ∧ oid_keyed
      (db_tasks (serve (H := toy_libraries)
                   [(env0, POST_tasks buy_milk, no_cookie);
                    (env0, DELETE_tasks "0000000000000000000000ff", no_cookie)]
                   empty_state)).
Proof.
  assert (Hk : oid_keyed (db_tasks empty_state)) by constructor.
  split; [exact Hk|].
  exact (proj1 (proj2 (application_tasks_only_grow (H := toy_libraries)
                         [(env0, POST_tasks buy_milk, no_cookie);
                          (env0, DELETE_tasks "0000000000000000000000ff",
                           no_cookie)] empty_state Hk))).
Defined.
